(** * HashrateIndex API client: a shallow embedding and its checked properties

    The development follows [src/hashrateindex.py] (class [API]) and
    [src/resolvers.py] (class [RESOLVERS]).

    - Python values that travel through the client (query text, GraphQL
      variables, decoded JSON envelopes) are values of [pyval].
    - A raised exception is a value of [exn]; a method that may raise and that
      talks to the network is a computation in the monad [M], which threads
      the list of HTTP requests issued so far and the lines handed to
      [logging.info].
    - The collaborators that the repository imports are parameters:
      [requests] and [json] are the fields of a [World], [pandas] those of
      a [Pandas].

    Text is modelled by strings of 8-bit characters, the UTF-8 bytes of a
    Python [str].  [str.lower] is given on ASCII letters, every other
    character being left as it is.  [str.isdigit] and [int] are given in
    full on ASCII text; on text that holds a character outside ASCII they
    depend on the interpreter's Unicode tables and are fields of the
    [World]. *)

From Stdlib Require Import String Ascii List ZArith NArith Lia Bool.
From Stdlib Require Import DecimalString DecimalPos.
Import ListNotations.

Local Open Scope list_scope.
Local Open Scope string_scope.


(* ================================================================== *)
(** ** Text: the [str] and [bytes] methods the client uses *)

Module Text.

Definition code (c : ascii) : N := N_of_ascii c.

Definition between (lo hi : N) (c : ascii) : bool :=
  (N.leb lo (code c) && N.leb (code c) hi)%bool.

Definition is_upper : ascii -> bool := between 65 90.
Definition is_lower : ascii -> bool := between 97 122.
Definition is_digit : ascii -> bool := between 48 57.

Definition lower_char (c : ascii) : ascii :=
  if is_upper c then ascii_of_N (code c + 32) else c.

Definition upper_char (c : ascii) : ascii :=
  if is_lower c then ascii_of_N (code c - 32) else c.

Definition swapcase_char (c : ascii) : ascii :=
  if is_upper c then lower_char c else upper_char c.

(** [s.lower()] *)
Fixpoint lower (s : string) : string :=
  match s with
  | EmptyString => EmptyString
  | String c r => String (lower_char c) (lower r)
  end.

Fixpoint all_digits (s : string) : bool :=
  match s with
  | EmptyString => true
  | String c r => (is_digit c && all_digits r)%bool
  end.

(** A string of ASCII decimal digits, at least one: [s.isdigit()] on
    ASCII text. *)
Definition ascii_isdigit (s : string) : bool :=
  match s with
  | EmptyString => false
  | String _ _ => all_digits s
  end.

Definition digit_value (c : ascii) : Z := (Z.of_N (code c) - 48)%Z.

Fixpoint int_from (acc : Z) (s : string) : Z :=
  match s with
  | EmptyString => acc
  | String c r => int_from (10 * acc + digit_value c)%Z r
  end.

(** The number that a string of ASCII decimal digits spells, leading
    zeros allowed. *)
Definition decimal (s : string) : Z := int_from 0%Z s.

(** No character outside ASCII. *)
Fixpoint ascii_only (s : string) : bool :=
  match s with
  | EmptyString => true
  | String c r => (between 0 127 c && ascii_only r)%bool
  end.

(** [str(n)] for an integer. *)
Definition str_of_int (n : Z) : string := NilZero.string_of_int (Z.to_int n).

(** [s.split(sep)] for a one-character separator. *)
Fixpoint split (sep : ascii) (s : string) : list string :=
  match s with
  | EmptyString => [EmptyString]
  | String c r =>
      if Ascii.eqb c sep then EmptyString :: split sep r
      else match split sep r with
           | h :: t => String c h :: t
           | [] => [String c EmptyString]
           end
  end.

Fixpoint contains_char (sep : ascii) (s : string) : bool :=
  match s with
  | EmptyString => false
  | String c r => (Ascii.eqb c sep || contains_char sep r)%bool
  end.

(** Well-formed UTF-8, as the strict decoder behind [bytes.decode()]
    accepts it: shortest forms only, no surrogates, nothing above
    U+10FFFF. *)
Definition cont : ascii -> bool := between 128 191.

Fixpoint utf8_ok (s : string) : bool :=
  match s with
  | EmptyString => true
  | String b0 r0 =>
      if between 0 127 b0 then utf8_ok r0
      else
        match r0 with
        | EmptyString => false
        | String b1 r1 =>
            if between 194 223 b0 then (cont b1 && utf8_ok r1)%bool
            else
              match r1 with
              | EmptyString => false
              | String b2 r2 =>
                  if between 224 239 b0 then
                    ((if between 224 224 b0 then between 160 191 b1
                      else if between 237 237 b0 then between 128 159 b1
                      else cont b1)
                     && cont b2 && utf8_ok r2)%bool
                  else
                    match r2 with
                    | EmptyString => false
                    | String b3 r3 =>
                        if between 240 244 b0 then
                          ((if between 240 240 b0 then between 144 191 b1
                            else if between 244 244 b0 then between 128 143 b1
                            else cont b1)
                           && cont b2 && cont b3 && utf8_ok r3)%bool
                        else false
                    end
              end
        end
  end.

(** [content.decode()]: the text, or [None] where Python raises
    [UnicodeDecodeError]. *)
Definition decode (content : string) : option string :=
  if utf8_ok content then Some content else None.

(** Two strings differ only in letter case when they agree position by
    position up to swapping the case of a letter. *)
Inductive same_up_to_case : string -> string -> Prop :=
| same_empty : same_up_to_case EmptyString EmptyString
| same_char c d s t :
    d = c \/ d = swapcase_char c ->
    same_up_to_case s t ->
    same_up_to_case (String c s) (String d t).

End Text.

(* ================================================================== *)
(** ** Values, exceptions and outcomes *)

(** Python values as the client sees them: what [json] encodes and decodes,
    and what [exec] builds from its argument string.  A [dict] keeps its
    insertion order; its keys are strings and occur once. *)
#[warnings="-register-all"]
Inductive pyval : Type :=
| PNone
| PBool (b : bool)
| PInt (n : Z)
| PFloat (mantissa exponent : Z)
| PStr (s : string)
| PList (items : list pyval)
| PDict (entries : list (string * pyval)).

(** The exceptions that the two source files, or the built-ins they call,
    raise.  [Exception msg] is the [raise Exception(msg)] of the source. *)
Inductive exn : Type :=
| Exception (msg : string)
| KeyError (key : string)
| TypeError
| AttributeError
| ValueError
| UnicodeDecodeError
| JSONDecodeError
| RequestException
| RecursionError.

Inductive outcome (A : Type) : Type :=
| Raised (e : exn)
| Returned (a : A).
Arguments Raised {A} e.
Arguments Returned {A} a.

Definition outcome_bind {A B} (o : outcome A) (k : A -> outcome B) : outcome B :=
  match o with
  | Raised e => Raised e
  | Returned a => k a
  end.

(* ------------------------------------------------------------------ *)
(** *** Dictionaries and subscripts *)

Fixpoint dict_get (k : string) (d : list (string * pyval)) : option pyval :=
  match d with
  | [] => None
  | (k', v) :: r => if String.eqb k' k then Some v else dict_get k r
  end.

(** Every entry under [k] goes; a Python dict has at most one. *)
Fixpoint dict_remove (k : string) (d : list (string * pyval)) : list (string * pyval) :=
  match d with
  | [] => []
  | (k', v) :: r =>
      if String.eqb k' k then dict_remove k r else (k', v) :: dict_remove k r
  end.

(** The entry under [k] is replaced in place, order kept. *)
Fixpoint dict_replace (k : string) (f : pyval -> pyval)
         (d : list (string * pyval)) : list (string * pyval) :=
  match d with
  | [] => []
  | (k', v) :: r =>
      if String.eqb k' k then (k', f v) :: r else (k', v) :: dict_replace k f r
  end.

(** [v[k]] for a string [k]. *)
Definition getitem (v : pyval) (k : string) : outcome pyval :=
  match v with
  | PDict d =>
      match dict_get k d with
      | Some x => Returned x
      | None => Raised (KeyError k)
      end
  | _ => Raised TypeError
  end.

(** [v[a][b][c]], subscripts taken left to right. *)
Definition subscript3 (v : pyval) (a b c : string) : outcome pyval :=
  outcome_bind (outcome_bind (getitem v a) (fun x => getitem x b))
               (fun y => getitem y c).

(** [del v[k]] for a string [k]: the object afterwards. *)
Definition delitem (v : pyval) (k : string) : outcome pyval :=
  match v with
  | PDict d =>
      match dict_get k d with
      | Some _ => Returned (PDict (dict_remove k d))
      | None => Raised (KeyError k)
      end
  | _ => Raised TypeError
  end.

(** The elements a [for] loop visits. *)
Definition iterate (v : pyval) : outcome (list pyval) :=
  match v with
  | PList items => Returned items
  | PDict d => Returned (map (fun kv => PStr (fst kv)) d)
  | PStr s => Returned (map (fun c => PStr (String c EmptyString)) (list_ascii_of_string s))
  | _ => Raised TypeError
  end.

(** The object [v] after the object reached from it through the keys of
    [path] has been changed to [new]. *)
Fixpoint assign_at (path : list string) (new : pyval) (v : pyval) : pyval :=
  match path with
  | [] => new
  | k :: ks =>
      match v with
      | PDict d => PDict (dict_replace k (assign_at ks new) d)
      | _ => v
      end
  end.

(** Walking a sequence of object keys from the root of an envelope. *)
Fixpoint get_path (path : list string) (v : pyval) : option pyval :=
  match path with
  | [] => Some v
  | k :: ks =>
      match v with
      | PDict d =>
          match dict_get k d with
          | Some x => get_path ks x
          | None => None
          end
      | _ => None
      end
  end.

(* ------------------------------------------------------------------ *)
(** *** [str.format] with keyword [field] *)

(** [template.format(field=field)] for templates whose replacement fields
    are plain names: doubled braces stand for one brace, and the
    replacement field that names [field] is replaced by the argument.
    [name] holds the field name read so far while the scan is inside a
    replacement field. *)
Fixpoint format_from (name : option string) (field : string) (template : string)
  : outcome string :=
  match name, template with
  | None, EmptyString => Returned EmptyString
  | None, String "{" (String "{" r) =>
      outcome_bind (format_from None field r) (fun t => Returned (String "{" t))
  | None, String "{" r => format_from (Some EmptyString) field r
  | None, String "}" (String "}" r) =>
      outcome_bind (format_from None field r) (fun t => Returned (String "}" t))
  | None, String "}" _ => Raised ValueError
  | None, String c r =>
      outcome_bind (format_from None field r) (fun t => Returned (String c t))
  | Some n, EmptyString => Raised ValueError
  | Some n, String "}" r =>
      if String.eqb n "field"
      then outcome_bind (format_from None field r) (fun t => Returned (field ++ t))
      else Raised (KeyError n)
  | Some n, String c r => format_from (Some (n ++ String c EmptyString)) field r
  end.

Definition format (template field : string) : outcome string :=
  format_from None field template.

(* ================================================================== *)
(** ** The world outside: transport, JSON codec, log *)

Record http_request : Type := {
  rq_method : string;
  rq_url : string;
  rq_headers : list (string * string);
  rq_data : string
}.

Record http_response : Type := {
  status_code : Z;
  reason : string;
  content : string
}.

(** What the imported libraries do.  [session_request] is
    [requests.Session.request]: given the requests issued before, it answers
    the present one or raises.  [json_loads] is what [response.json()]
    makes of the body.  The last three fields are the interpreter's:
    [s.isdigit()] and [int(s)] on a string that holds a character outside
    ASCII, which its Unicode tables decide, and the limit on the number of
    digits that [int] converts ([sys.get_int_max_str_digits()], 0 for
    none). *)
Record World : Type := {
  json_dumps : pyval -> string;
  json_loads : string -> outcome pyval;
  session_request : list http_request -> http_request -> outcome http_response;
  isdigit_beyond_ascii : string -> bool;
  int_beyond_ascii : string -> outcome Z;
  int_max_str_digits : nat
}.

(** The observable trace of a run: HTTP requests in the order issued, and
    the messages handed to [logging.info]. *)
Record trace : Type := {
  sent : list http_request;
  logged : list pyval
}.

Definition M (A : Type) : Type := trace -> outcome A * trace.

Definition ret {A} (a : A) : M A := fun t => (Returned a, t).
Definition raise {A} (e : exn) : M A := fun t => (Raised e, t).
Definition lift {A} (o : outcome A) : M A := fun t => (o, t).

Definition bind {A B} (c : M A) (k : A -> M B) : M B :=
  fun t =>
    match c t with
    | (Raised e, t') => (Raised e, t')
    | (Returned a, t') => k a t'
    end.

Notation "x <- c ;; k" := (bind c (fun x => k))
  (at level 61, c at next level, right associativity).
Notation "c ;;; k" := (bind c (fun _ => k))
  (at level 61, right associativity).

Definition logging_info (msg : pyval) : M unit :=
  fun t => (Returned tt, {| sent := sent t; logged := logged t ++ [msg] |}).

Definition issue (W : World) (rq : http_request) : M http_response :=
  fun t =>
    (session_request W (sent t) rq,
     {| sent := sent t ++ [rq]; logged := logged t |}).

Definition decode_content (content : string) : outcome string :=
  match Text.decode content with
  | Some text => Returned text
  | None => Raised UnicodeDecodeError
  end.

(* ================================================================== *)
(** ** Class [API] *)

Record API : Type := {
  host : string;
  key : string;
  method : string;
  verbose : bool
}.

Definition bitcoin_overview_query : string :=
"query bitcoinOverviews($last: Int!) {bitcoinOverviews(last: $last) {
            nodes{
                timestamp
                hashpriceUsd
                networkHashrate7D
                networkDiff
                estDiffAdj
                coinbaseRewards24H
                feesBlocks24H
                marketcap
                nextHalvingCount
                nextHalvingDate
                txRateAvg7D
            }
        }}".

Definition hashprice_template : string :=
"query get_hashprice($inputInterval: ChartsInterval!, $first: Int) {{
            getHashprice(inputInterval: $inputInterval, first: $first) {{
                nodes {{
                    timestamp
                    {field}
                }}
            }}
        }}".

Definition network_hashrate_query : string :=
"query get_network_hashrate($inputInterval: ChartsInterval!, $first: Int) {
            getNetworkHashrate(inputInterval: $inputInterval, first: $first) {
                nodes {
                    timestamp
                    networkHashrate
                }
            }
        }".

Definition network_difficulty_query : string :=
"query get_price_difficulty($inputInterval: ChartsInterval, $inputSlug: String) {
            getChartBySlug(inputInterval: $inputInterval, inputSlug: $inputSlug) {
                data
            }
        }".

Definition ohlc_prices_query : string :=
"query get_ohlc_prices($inputInterval: ChartsInterval, $inputSlug: String) {
            getChartBySlug(inputInterval: $inputInterval, inputSlug: $inputSlug) {
                data
            }
        }".

Definition asic_price_index_query : string :=
"query get_asic_price_index($inputInterval: ChartsInterval, $inputSlug: String) {
            getChartBySlug(inputInterval: $inputInterval, inputSlug: $inputSlug) {
                data
            }
        }".

(** The text of [hashprice_template] on either side of its replacement
    field, braces undoubled. *)
Definition hashprice_before : string :=
"query get_hashprice($inputInterval: ChartsInterval!, $first: Int) {
            getHashprice(inputInterval: $inputInterval, first: $first) {
                nodes {
                    timestamp
                    ".

Definition hashprice_after : string :=
"
                }
            }
        }".

Definition invalid_currency : exn := Exception "Invalid currency input".

Definition currency_known (currency : string) : bool :=
  existsb (String.eqb (Text.lower currency)) ["btc"; "usd"].

Definition nonempty (content : string) : bool :=
  match content with
  | EmptyString => false
  | String _ _ => true
  end.

Definition request_body (W : World) (query params : pyval) : string :=
  json_dumps W (PDict [("query", query); ("variables", params)]).

Definition outgoing (W : World) (self : API) (query params : pyval) : http_request :=
  {| rq_method := method self;
     rq_url := host self;
     rq_headers := [("Content-Type", "application/json"); ("x-hi-api-key", key self)];
     rq_data := request_body W query params |}.

(** The attributes of an [API] instance that the class body and its
    constructor define by name.  What an instance inherits from [object]
    (names of the form [__x__]) is not modelled. *)
Inductive bound_method : Type :=
| m_request
| m_get_bitcoin_overview
| m_get_hashprice
| m_get_network_hashrate
| m_get_network_difficulty
| m_get_ohlc_prices
| m_get_asic_price_index
| m_exec.

Inductive attribute : Type :=
| Field (v : pyval)
| Method (m : bound_method).

Definition method_table : list (string * bound_method) :=
  [ ("request", m_request);
    ("get_bitcoin_overview", m_get_bitcoin_overview);
    ("get_hashprice", m_get_hashprice);
    ("get_network_hashrate", m_get_network_hashrate);
    ("get_network_difficulty", m_get_network_difficulty);
    ("get_ohlc_prices", m_get_ohlc_prices);
    ("get_asic_price_index", m_get_asic_price_index);
    ("exec", m_exec) ].

Fixpoint assoc {A} (k : string) (l : list (string * A)) : option A :=
  match l with
  | [] => None
  | (k', a) :: r => if String.eqb k' k then Some a else assoc k r
  end.

Definition getattr (self : API) (name : string) : option attribute :=
  match assoc name
          [ ("host", PStr (host self)); ("key", PStr (key self));
            ("method", PStr (method self)); ("verbose", PBool (verbose self)) ] with
  | Some v => Some (Field v)
  | None =>
      match assoc name method_table with
      | Some m => Some (Method m)
      | None => None
      end
  end.

(** The loop [for element in ...: del element["price"]] over the elements
    of a list, which are changed in place: the list afterwards, and the
    exception that stopped the loop, if one did. *)
Fixpoint del_price_each (elements : list pyval) : list pyval * option exn :=
  match elements with
  | [] => ([], None)
  | element :: rest =>
      match delitem element "price" with
      | Raised e => (element :: rest, Some e)
      | Returned element' =>
          let (rest', stop) := del_price_each rest in
          (element' :: rest', stop)
      end
  end.

Definition difficulty_path : list string := ["data"; "getChartBySlug"; "data"].

(** Lines 219-220 of [hashrateindex.py] on the decoded envelope [result]:
    the envelope object when the loop is left, and the exception that left
    it, if any.  Only list elements are objects of the envelope; the keys of
    a dict and the characters of a string are visited as fresh strings. *)
Definition strip_prices (result : pyval) : pyval * option exn :=
  match subscript3 result "data" "getChartBySlug" "data" with
  | Raised e => (result, Some e)
  | Returned (PList elements) =>
      let (elements', stop) := del_price_each elements in
      (assign_at difficulty_path (PList elements') result, stop)
  | Returned payload =>
      match iterate payload with
      | Raised e => (result, Some e)
      | Returned visited => (result, snd (del_price_each visited))
      end
  end.

(** The interpreter checks the limit only above this many digits
    ([sys.int_info.str_digits_check_threshold]). *)
Definition str_digits_check_threshold : nat := 640.

Definition too_many_digits (W : World) (digits : nat) : bool :=
  (Nat.ltb 0 (int_max_str_digits W)
   && Nat.ltb (int_max_str_digits W) digits
   && Nat.ltb str_digits_check_threshold digits)%bool.

(** [s.isdigit()] *)
Definition isdigit (W : World) (s : string) : bool :=
  if Text.ascii_only s then Text.ascii_isdigit s else isdigit_beyond_ascii W s.

(** [int(s)] for a string on which [isdigit] holds: [ValueError] when
    the digits are more than the limit allows, or are not decimal. *)
Definition int (W : World) (s : string) : outcome Z :=
  if Text.ascii_only s then
    if too_many_digits W (String.length s) then Raised ValueError
    else Returned (Text.decimal s)
  else int_beyond_ascii W s.

(** One argument of [exec]'s comma-separated string (lines 291-297). *)
Definition coerce (W : World) (arg : string) : outcome pyval :=
  if isdigit W arg then outcome_bind (int W arg) (fun n => Returned (PInt n))
  else Returned (PStr arg).

(** The loop of lines 289-297: the arguments in order, or the exception of
    the first piece that [int] refuses. *)
Fixpoint coerce_each (W : World) (pieces : list string) : outcome (list pyval) :=
  match pieces with
  | [] => Returned []
  | arg :: rest =>
      outcome_bind (coerce W arg) (fun v =>
      outcome_bind (coerce_each W rest) (fun vs => Returned (v :: vs)))
  end.

Section Client.

Variable W : World.

(** Lines 107-114 of [hashrateindex.py]: what [request] makes of the
    response it got. *)
Definition read_response (response : http_response) : outcome pyval :=
  if Z.eqb (status_code response) 200 then
    json_loads W (content response)
  else if nonempty (content response) then
    outcome_bind (decode_content (content response)) (fun text =>
    Raised (Exception (Text.str_of_int (status_code response) ++ ": "
                       ++ reason response ++ ": " ++ text)))
  else
    Raised (Exception (Text.str_of_int (status_code response) ++ ": "
                       ++ reason response)).

Definition request (self : API) (query params : pyval) : M pyval :=
  (if verbose self then logging_info query else ret tt) ;;;
  response <- issue W (outgoing W self query params) ;;
  lift (read_response response).

Definition get_bitcoin_overview (self : API) : M pyval :=
  let query := bitcoin_overview_query in
  let params := PDict [("last", PInt 1)] in
  request self (PStr query) params.

Definition get_hashprice (self : API) (inputInterval : pyval) (currency : string)
  : M pyval :=
  if negb (currency_known currency) then raise invalid_currency
  else
    let field := Text.lower currency ++ "Hashprice" in
    query <- lift (format hashprice_template field) ;;
    let params := PDict [("inputInterval", inputInterval); ("first", PInt 10000)] in
    request self (PStr query) params.

Definition get_network_hashrate (self : API) (inputInterval : pyval) : M pyval :=
  let query := network_hashrate_query in
  let params := PDict [("inputInterval", inputInterval); ("first", PInt 10000)] in
  request self (PStr query) params.

Definition get_network_difficulty (self : API) (inputInterval : pyval) : M pyval :=
  let query := network_difficulty_query in
  let params := PDict [("inputInterval", inputInterval);
                       ("inputSlug", PStr "bitcoin-price-and-difficulty")] in
  result <- request self (PStr query) params ;;
  match strip_prices result with
  | (_, Some e) => raise e
  | (result', None) => ret result'
  end.

Definition get_ohlc_prices (self : API) (inputInterval : pyval) : M pyval :=
  let query := ohlc_prices_query in
  let params := PDict [("inputInterval", inputInterval);
                       ("inputSlug", PStr "bitcoin-ohlc")] in
  request self (PStr query) params.

Definition get_asic_price_index (self : API) (inputInterval : pyval) (currency : string)
  : M pyval :=
  let query := asic_price_index_query in
  if negb (currency_known currency) then raise invalid_currency
  else
    let params := PDict [("inputInterval", inputInterval);
                         ("inputSlug", PStr ("asic-price-index-" ++ Text.lower currency))] in
    request self (PStr query) params.

(** [currency.lower()] on an argument that [exec] may have turned into an
    integer: only a string has the method. *)
Definition with_str {A} (v : pyval) (k : string -> M A) : M A :=
  match v with
  | PStr s => k s
  | _ => raise AttributeError
  end.

(** [func] called with [args] unpacked as positional arguments; a
    wrong number of them is a [TypeError].  [self_exec] is the method
    [exec] itself. *)
Definition call (self_exec : API -> pyval -> pyval -> M pyval)
           (self : API) (func : bound_method) (args : list pyval) : M pyval :=
  match func, args with
  | m_request, [query] => request self query PNone
  | m_request, [query; params] => request self query params
  | m_get_bitcoin_overview, [] => get_bitcoin_overview self
  | m_get_hashprice, [inputInterval; currency] =>
      with_str currency (get_hashprice self inputInterval)
  | m_get_network_hashrate, [inputInterval] => get_network_hashrate self inputInterval
  | m_get_network_difficulty, [inputInterval] => get_network_difficulty self inputInterval
  | m_get_ohlc_prices, [inputInterval] => get_ohlc_prices self inputInterval
  | m_get_asic_price_index, [inputInterval; currency] =>
      with_str currency (get_asic_price_index self inputInterval)
  | m_exec, [method; params] => self_exec self method params
  | _, _ => raise TypeError
  end.

(** The body of [exec].  [depth] bounds the nesting of [exec] calling
    itself by name, as the interpreter's recursion limit does. *)
Fixpoint exec_depth (depth : nat) (self : API) (method params : pyval) : M pyval :=
  match depth with
  | O => raise RecursionError
  | S depth' =>
      match method with
      | PStr name =>
          match getattr self name with
          | Some (Method func) =>
              match params with
              | PStr text =>
                  if nonempty text then
                    args <- lift (coerce_each W (Text.split "," text)) ;;
                    call (exec_depth depth') self func args
                  else call (exec_depth depth') self func []
              | PList [] | PDict [] => call (exec_depth depth') self func []
              | PList _ | PDict _ => raise AttributeError
              | _ => raise TypeError
              end
          | _ => raise (Exception ("failed to execute " ++ name))
          end
      | _ => raise TypeError
      end
  end.

Definition recursion_limit : nat := 1000.

Definition exec (self : API) (method : string) (params : pyval) : M pyval :=
  exec_depth recursion_limit self (PStr method) params.

End Client.

(* ================================================================== *)
(** ** Class [RESOLVERS] *)

(** [pandas.DataFrame], which the resolvers call in tabular mode. *)
Record Pandas : Type := {
  frame : Type;
  DataFrame : pyval -> outcome frame
}.

Record RESOLVERS : Type := { df : bool }.

Inductive resolved (P : Pandas) : Type :=
| AsList (data : pyval)
| AsFrame (table : frame P).
Arguments AsList {P} data.
Arguments AsFrame {P} table.

Section Resolvers.

Variable P : Pandas.

Definition shape (self : RESOLVERS) (data : pyval) : outcome (resolved P) :=
  if df self then outcome_bind (DataFrame P data) (fun t => Returned (AsFrame t))
  else Returned (AsList data).

Definition resolve_get_bitcoin_overview (self : RESOLVERS) (json : pyval)
  : outcome (resolved P) :=
  outcome_bind (getitem json "data") (fun a =>
  outcome_bind (getitem a "bitcoinOverviews") (fun b =>
  outcome_bind (getitem b "nodes") (fun data =>
  shape self data))).

Definition resolve_get_hashprice (self : RESOLVERS) (json : pyval)
  : outcome (resolved P) :=
  outcome_bind (getitem json "data") (fun a =>
  outcome_bind (getitem a "getHashprice") (fun b =>
  outcome_bind (getitem b "nodes") (fun data =>
  shape self data))).

Definition resolve_get_network_hashrate (self : RESOLVERS) (json : pyval)
  : outcome (resolved P) :=
  outcome_bind (getitem json "data") (fun a =>
  outcome_bind (getitem a "getNetworkHashrate") (fun b =>
  outcome_bind (getitem b "nodes") (fun data =>
  shape self data))).

Definition resolve_get_network_difficulty (self : RESOLVERS) (json : pyval)
  : outcome (resolved P) :=
  outcome_bind (getitem json "data") (fun a =>
  outcome_bind (getitem a "getChartBySlug") (fun b =>
  outcome_bind (getitem b "data") (fun data =>
  shape self data))).

Definition resolve_get_ohlc_prices (self : RESOLVERS) (json : pyval)
  : outcome (resolved P) :=
  outcome_bind (getitem json "data") (fun a =>
  outcome_bind (getitem a "getChartBySlug") (fun b =>
  outcome_bind (getitem b "data") (fun data =>
  shape self data))).

Definition resolve_get_asic_price_index (self : RESOLVERS) (json : pyval)
  : outcome (resolved P) :=
  outcome_bind (getitem json "data") (fun a =>
  outcome_bind (getitem a "getChartBySlug") (fun b =>
  outcome_bind (getitem b "data") (fun data =>
  shape self data))).

End Resolvers.

(* ================================================================== *)
(** ** The command line: the script body of [hashrateindex.py] *)

(** [API.__init__]; [verbose] is the keyword argument that defaults to
    [False]. *)
Definition init (host key method : string) (verbose : bool) : API :=
  {| host := host; key := key; method := method; verbose := verbose |}.

(** The values of the option parser; [opt_df] is the truth value of
    [options.df]. *)
Record Options : Type := {
  opt_host : string;
  opt_key : string;
  opt_method : string;
  opt_function : string;
  opt_query : string;
  opt_params : string;
  opt_df : bool
}.

(** The parser's defaults. *)
Definition default_options : Options :=
  {| opt_host := "https://api.hashrateindex.com/graphql";
     opt_key := EmptyString;
     opt_method := "POST";
     opt_function := EmptyString;
     opt_query := EmptyString;
     opt_params := EmptyString;
     opt_df := false |}.

(** How the script ends: [exit(code)], or an exception that nothing
    caught. *)
Inductive process_end : Type :=
| Exit (code : Z)
| Traceback (e : exn).

(** [name in dir(API)], on the names that the class and its constructor
    define (see [bound_method]). *)
Definition in_dir (self : API) (name : string) : bool :=
  match getattr self name with
  | Some _ => true
  | None => false
  end.

(** Lines 341-368 of [hashrateindex.py].  The result is the end of the
    process, the trace, and the errors handed to [logging.critical]. *)
Definition main (W : World) (options : Options) (t : trace)
  : process_end * trace * list exn :=
  let API := init (opt_host options) (opt_key options) (opt_method options) false in
  let RESOLVERS := {| df := opt_df options |} in
  if (String.eqb (opt_query options) EmptyString
      && String.eqb (opt_function options) EmptyString)%bool then
    (Traceback (Exception "must provide function or query"), t, [])
  else if (String.eqb (opt_query options) EmptyString
           && negb (in_dir API (opt_function options)))%bool then
    (Traceback (Exception "function not found"), t, [])
  else
    let attempt : M unit :=
      resp <- (if String.eqb (opt_query options) EmptyString
               then exec W API (opt_function options) (PStr (opt_params options))
               else request W API (PStr (opt_query options))
                            (PStr (opt_params options))) ;;
      logging_info resp in
    match attempt t with
    | (Returned _, t') => (Exit 0, t', [])
    | (Raised error, t') => (Exit 1, t', [error])
    end.

(* ================================================================== *)
(** ** A concrete world for running the client *)

Module Demo.

Definition dq : string := String (ascii_of_nat 34) EmptyString.
Definition backslash : string := String (ascii_of_nat 92) EmptyString.

Fixpoint escape (s : string) : string :=
  match s with
  | EmptyString => EmptyString
  | String c r =>
      (if Ascii.eqb c (ascii_of_nat 34) then backslash ++ dq
       else if Ascii.eqb c (ascii_of_nat 92) then backslash ++ backslash
       else if Ascii.eqb c (ascii_of_nat 10) then backslash ++ "n"
       else String c EmptyString) ++ escape r
  end.

Definition quote (s : string) : string := dq ++ escape s ++ dq.

(** A JSON printer in the layout of [json.dumps]. *)
Fixpoint dumps (v : pyval) : string :=
  match v with
  | PNone => "null"
  | PBool true => "true"
  | PBool false => "false"
  | PInt n => Text.str_of_int n
  | PFloat m e => Text.str_of_int m ++ "e" ++ Text.str_of_int e
  | PStr s => quote s
  | PList items =>
      "[" ++ (fix each (l : list pyval) : string :=
                match l with
                | [] => EmptyString
                | [x] => dumps x
                | x :: r => dumps x ++ ", " ++ each r
                end) items ++ "]"
  | PDict entries =>
      "{" ++ (fix each (l : list (string * pyval)) : string :=
                match l with
                | [] => EmptyString
                | [(k, x)] => quote k ++ ": " ++ dumps x
                | (k, x) :: r => quote k ++ ": " ++ dumps x ++ ", " ++ each r
                end) entries ++ "}"
  end.

(** Decoding by table: the bodies of [known] are read back, anything else
    is not JSON. *)
Definition loads (known : list pyval) (body : string) : outcome pyval :=
  match find (fun v => String.eqb (dumps v) body) known with
  | Some v => Returned v
  | None => Raised JSONDecodeError
  end.

(** Two characters outside ASCII that [str.isdigit] accepts: superscript
    two, which [int] refuses, and the Arabic-Indic digit three. *)
Definition superscript_two : string :=
  String (ascii_of_nat 194) (String (ascii_of_nat 178) EmptyString).

Definition arabic_three : string :=
  String (ascii_of_nat 217) (String (ascii_of_nat 163) EmptyString).

Definition isdigit_beyond (s : string) : bool :=
  (String.eqb s superscript_two || String.eqb s arabic_three)%bool.

Definition int_beyond (s : string) : outcome Z :=
  if String.eqb s arabic_three then Returned 3%Z else Raised ValueError.

(** A server that answers every request with [response], under an
    interpreter with the default limit of digits. *)
Definition world (known : list pyval) (response : http_response) : World :=
  {| json_dumps := dumps;
     json_loads := loads known;
     session_request := fun _ _ => Returned response;
     isdigit_beyond_ascii := isdigit_beyond;
     int_beyond_ascii := int_beyond;
     int_max_str_digits := 4300 |}.


Definition api : API :=
  {| host := "https://api.hashrateindex.com/graphql";
     key := "secret";
     method := "POST";
     verbose := false |}.

Definition start : trace := {| sent := []; logged := [] |}.

Definition record1 : pyval :=
  PDict [("timestamp", PInt 1700000000); ("difficulty", PInt 64); ("price", PInt 37000)].
Definition record2 : pyval :=
  PDict [("timestamp", PInt 1700086400); ("price", PInt 37500); ("difficulty", PInt 65)].
Definition record_no_price : pyval :=
  PDict [("timestamp", PInt 1700172800); ("difficulty", PInt 66)].

Definition chart (records : list pyval) : pyval :=
  PDict [("data", PDict [("getChartBySlug", PDict [("data", PList records)])])].

Definition error_shaped : pyval :=
  PDict [("errors", PList [PDict [("message", PStr "bad interval")]]); ("data", PNone)].

Definition known : list pyval :=
  [chart [record1; record2]; chart [record1; record_no_price; record2]; error_shaped].

Definition ok (v : pyval) : http_response :=
  {| status_code := 200; reason := "OK"; content := dumps v |}.

Definition not_found : http_response :=
  {| status_code := 404; reason := "Not Found"; content := "no such route" |}.

Definition no_content : http_response :=
  {| status_code := 204; reason := "No Content"; content := EmptyString |}.

Definition served_404 : World := world known not_found.
Definition served_204 : World := world known no_content.
Definition served_chart : World := world known (ok (chart [record1; record2])).
Definition served_gap : World :=
  world known (ok (chart [record1; record_no_price; record2])).

Definition stripped1 : pyval :=
  PDict [("timestamp", PInt 1700000000); ("difficulty", PInt 64)].
Definition stripped2 : pyval :=
  PDict [("timestamp", PInt 1700086400); ("difficulty", PInt 65)].

(** A network that is down, and a gateway that answers in bytes that are
    no text. *)
Definition unreachable : World :=
  {| json_dumps := dumps;
     json_loads := loads known;
     session_request := fun _ _ => Raised RequestException;
     isdigit_beyond_ascii := isdigit_beyond;
     int_beyond_ascii := int_beyond;
     int_max_str_digits := 4300 |}.

Definition garbled : http_response :=
  {| status_code := 502; reason := "Bad Gateway";
     content := String (ascii_of_nat 255) EmptyString |}.

Definition served_garbled : World := world known garbled.

Definition overview_envelope : pyval :=
  PDict [("data", PDict [("bitcoinOverviews",
            PDict [("nodes", PList [PDict [("timestamp", PInt 1700000000);
                                           ("networkDiff", PInt 64)]])])])].

Definition served_overview : World :=
  world [overview_envelope] (ok overview_envelope).

Definition served_empty_chart : World := world [chart []] (ok (chart [])).

Definition null_chart : pyval :=
  PDict [("data", PDict [("getChartBySlug", PDict [("data", PNone)])])].

Definition served_null_chart : World := world [null_chart] (ok null_chart).

Definition served_error_shaped : World := world known (ok error_shaped).

(** Command lines. *)
Definition cli (function query params : string) : Options :=
  {| opt_host := "https://api.hashrateindex.com/graphql";
     opt_key := "secret";
     opt_method := "POST";
     opt_function := function;
     opt_query := query;
     opt_params := params;
     opt_df := false |}.

Definition cli_api : API :=
  init "https://api.hashrateindex.com/graphql" "secret" "POST" false.

Definition pandas : Pandas :=
  {| frame := list pyval;
     DataFrame := fun data =>
       match data with
       | PList rows => Returned rows
       | PNone => Returned []
       | _ => Raised ValueError
       end |}.

End Demo.

(* ================================================================== *)
(** ** Vocabulary of the statements *)

(** [v] is a dict that has the key [k]. *)
Definition has_key (k : string) (v : pyval) : bool :=
  match v with
  | PDict d =>
      match dict_get k d with
      | Some _ => true
      | None => false
      end
  | _ => false
  end.

Definition without_price (record : pyval) : pyval :=
  match record with
  | PDict d => PDict (dict_remove "price" d)
  | other => other
  end.

(** The failure of a subscript chain over [path]: a missing key of the
    path, or a value on the way that takes no string subscript. *)
Definition malformed_response (path : list string) (e : exn) : Prop :=
  e = TypeError \/ exists k, In k path /\ e = KeyError k.

Definition fails_malformed {A} (path : list string) (o : outcome A) : Prop :=
  exists e, o = Raised e /\ malformed_response path e.

(** The requests a computation issues when started on trace [t]. *)
Definition requests_of {A} (c : M A) (t : trace) : list http_request :=
  sent (snd (c t)).

(** What [exec] does with the method it has resolved: the call of
    [func] on [args], [exec] itself being available one level down. *)
Definition invoke (W : World) (self : API) (func : bound_method) (args : list pyval)
  : M pyval :=
  call W (exec_depth W (Nat.pred recursion_limit)) self func args.

(** An argument that [exec] can produce from one piece of its argument
    string: an integer, or a string with no comma in it. *)
Definition piece (v : pyval) : Prop :=
  match v with
  | PInt _ => True
  | PStr s => Text.contains_char "," s = false
  | _ => False
  end.

Definition difficulty_params (inputInterval : pyval) : pyval :=
  PDict [("inputInterval", inputInterval);
         ("inputSlug", PStr "bitcoin-price-and-difficulty")].

Definition page_params (inputInterval : pyval) : pyval :=
  PDict [("inputInterval", inputInterval); ("first", PInt 10000)].

(** The numbers of positional arguments each method accepts. *)
Definition arities (func : bound_method) : list nat :=
  match func with
  | m_request => [1; 2]%nat
  | m_get_bitcoin_overview => [0]%nat
  | m_get_hashprice | m_get_asic_price_index | m_exec => [2]%nat
  | m_get_network_hashrate | m_get_network_difficulty | m_get_ohlc_prices => [1]%nat
  end.

Fixpoint count_char (sep : ascii) (s : string) : nat :=
  match s with
  | EmptyString => O
  | String c r => if Ascii.eqb c sep then S (count_char sep r) else count_char sep r
  end.

(** How many positional arguments [exec] makes of its argument string. *)
Definition argument_count (text : string) : nat :=
  match text with
  | EmptyString => O
  | String _ _ => S (count_char "," text)
  end.

(** A computation that adds at most one request to the trace, keeps what
    was there, and logs nothing unless [verbose]. *)
Definition bounded_effect {A} (verbose : bool) (c : M A) : Prop :=
  forall t, exists rqs logs,
    snd (c t) = {| sent := (sent t ++ rqs)%list; logged := (logged t ++ logs)%list |}
    /\ (length rqs <= 1)%nat
    /\ (length logs <= 1)%nat
    /\ (verbose = false -> logs = []).

(** Names of the form that [object] gives to what every instance
    inherits. *)
Definition inherited_form (name : string) : bool := String.prefix "__" name.

(* ================================================================== *)
(** ** Text lemmas *)

Lemma lower_swapcase_char (c : ascii) :
  Text.lower_char (Text.swapcase_char c) = Text.lower_char c.
Proof.
  destruct c as [b0 b1 b2 b3 b4 b5 b6 b7];
    destruct b0, b1, b2, b3, b4, b5, b6, b7; reflexivity.
Qed.

Lemma same_up_to_case_lower (a b : string) :
  Text.same_up_to_case a b -> Text.lower a = Text.lower b.
Proof.
  induction 1 as [| c d s t Hcd _ IH]; [reflexivity |].
  simpl. rewrite IH. f_equal.
  destruct Hcd as [-> | ->]; [reflexivity | symmetry; apply lower_swapcase_char].
Qed.

Lemma same_up_to_case_refl (a : string) : Text.same_up_to_case a a.
Proof.
  induction a; constructor; auto.
Qed.




Lemma split_without_separator (sep : ascii) (s : string) :
  Text.contains_char sep s = false -> Text.split sep s = [s].
Proof.
  induction s as [| c r IH]; simpl; [reflexivity |].
  intro H. apply orb_false_iff in H. destruct H as [Hc Hr].
  rewrite Hc, (IH Hr). reflexivity.
Qed.

Lemma nonempty_true (s : string) : s <> EmptyString -> nonempty s = true.
Proof.
  destruct s; [congruence | reflexivity].
Qed.

(** [format] on the hashprice template puts the field between the two
    fixed pieces of text. *)
Lemma format_hashprice_template (field : string) :
  format hashprice_template field
  = Returned (hashprice_before ++ field ++ hashprice_after).
Proof.
  reflexivity.
Qed.

(* ================================================================== *)
(** ** Dictionaries and paths *)

Lemma dict_get_remove_same (k : string) (d : list (string * pyval)) :
  dict_get k (dict_remove k d) = None.
Proof.
  induction d as [| [k' v] r IH]; simpl; [reflexivity |].
  destruct (String.eqb k' k) eqn:E; [exact IH |].
  simpl. rewrite E. exact IH.
Qed.

Lemma dict_get_remove_other (k k' : string) (d : list (string * pyval)) :
  k' <> k -> dict_get k' (dict_remove k d) = dict_get k' d.
Proof.
  intro Hne.
  induction d as [| [k0 v] r IH]; simpl; [reflexivity |].
  destruct (String.eqb k0 k) eqn:E.
  - apply String.eqb_eq in E. subst k0.
    destruct (String.eqb k k') eqn:E'; [| exact IH].
    apply String.eqb_eq in E'. congruence.
  - simpl. destruct (String.eqb k0 k'); [reflexivity | exact IH].
Qed.

Lemma dict_get_replace (k : string) (f : pyval -> pyval) (d : list (string * pyval)) :
  dict_get k (dict_replace k f d) = option_map f (dict_get k d).
Proof.
  induction d as [| [k' v] r IH]; simpl; [reflexivity |].
  destruct (String.eqb k' k) eqn:E; simpl; rewrite E; [reflexivity | exact IH].
Qed.

Lemma get_path_assign_at (path : list string) (new old v : pyval) :
  get_path path v = Some old ->
  get_path path (assign_at path new v) = Some new.
Proof.
  revert v. induction path as [| k ks IH]; intros v H; simpl in *; [reflexivity |].
  destruct v; try discriminate.
  rewrite dict_get_replace.
  destruct (dict_get k entries) as [x |]; [| discriminate].
  simpl. apply IH. exact H.
Qed.

Lemma subscript3_present (v x : pyval) (a b c : string) :
  get_path [a; b; c] v = Some x -> subscript3 v a b c = Returned x.
Proof.
  unfold subscript3. simpl.
  destruct v; try discriminate. simpl.
  destruct (dict_get a entries) as [v1 |]; [| discriminate]. simpl.
  destruct v1; try discriminate. simpl.
  destruct (dict_get b entries0) as [v2 |]; [| discriminate]. simpl.
  destruct v2; try discriminate. simpl.
  destruct (dict_get c entries1) as [v3 |]; [| discriminate].
  congruence.
Qed.

Lemma subscript3_absent (v : pyval) (a b c : string) :
  get_path [a; b; c] v = None -> fails_malformed [a; b; c] (subscript3 v a b c).
Proof.
  unfold subscript3, fails_malformed, malformed_response. simpl.
  destruct v; try (intros _; eexists; split; [reflexivity | now left]). simpl.
  destruct (dict_get a entries) as [v1 |]; simpl;
    [| intros _; eexists; split; [reflexivity | right; exists a; auto]].
  destruct v1; try (intros _; eexists; split; [reflexivity | now left]). simpl.
  destruct (dict_get b entries0) as [v2 |]; simpl;
    [| intros _; eexists; split; [reflexivity | right; exists b; auto]].
  destruct v2; try (intros _; eexists; split; [reflexivity | now left]). simpl.
  destruct (dict_get c entries1) as [v3 |]; simpl;
    [discriminate | intros _; eexists; split; [reflexivity | right; exists c; auto]].
Qed.

(* ================================================================== *)
(** ** The request function *)

Section RequestFacts.

Variable W : World.

Lemma bind_lift_returned {A B} (a : A) (k : A -> M B) :
  bind (lift (Returned a)) k = k a.
Proof.
  reflexivity.
Qed.

(** One run of [request]: the query is logged when verbose, one HTTP
    request goes out, and the answer is read by [read_response]. *)
Lemma request_run (self : API) (query params : pyval) (t : trace) :
  request W self query params t
  = (outcome_bind (session_request W (sent t) (outgoing W self query params))
                  (read_response W),
     {| sent := (sent t ++ [outgoing W self query params])%list;
        logged := if verbose self then (logged t ++ [query])%list else logged t |}).
Proof.
  unfold request, bind, issue, lift, logging_info, ret.
  destruct (verbose self); simpl;
    destruct (session_request W (sent t) (outgoing W self query params));
    reflexivity.
Qed.

Lemma request_sends_one (self : API) (query params : pyval) (t : trace) :
  requests_of (request W self query params) t
  = (sent t ++ [outgoing W self query params])%list.
Proof.
  unfold requests_of. rewrite request_run. reflexivity.
Qed.

Lemma read_response_200 (response : http_response) :
  status_code response = 200%Z ->
  read_response W response = json_loads W (content response).
Proof.
  intro H. unfold read_response. rewrite H. reflexivity.
Qed.

Lemma read_response_not_200 (response : http_response) :
  status_code response <> 200%Z ->
  read_response W response
  = if nonempty (content response) then
      outcome_bind (decode_content (content response)) (fun text =>
      Raised (Exception (Text.str_of_int (status_code response) ++ ": "
                         ++ reason response ++ ": " ++ text)))
    else
      Raised (Exception (Text.str_of_int (status_code response) ++ ": "
                         ++ reason response)).
Proof.
  intro H. unfold read_response.
  destruct (Z.eqb_spec (status_code response) 200) as [E | _]; [contradiction | reflexivity].
Qed.

Lemma currency_known_false (currency : string) :
  Text.lower currency <> "btc" -> Text.lower currency <> "usd" ->
  currency_known currency = false.
Proof.
  intros Hb Hu. unfold currency_known. cbn [existsb].
  apply String.eqb_neq in Hb, Hu.
  rewrite Hb, Hu. reflexivity.
Qed.

Lemma currency_known_true (currency : string) :
  Text.lower currency = "btc" \/ Text.lower currency = "usd" ->
  currency_known currency = true.
Proof.
  unfold currency_known. cbn [existsb].
  intros [-> | ->]; reflexivity.
Qed.

(** C1. A currency whose lowercase form is neither [btc] nor [usd] makes
    [get_hashprice] and [get_asic_price_index] raise the invalid-currency
    exception with the trace untouched: no request has been issued and
    [request], which would have logged or sent, has not run. *)
Theorem invalid_currency_fails_fast
        (self : API) (inputInterval : pyval) (currency : string) (t : trace) :
  Text.lower currency <> "btc" ->
  Text.lower currency <> "usd" ->
  get_hashprice W self inputInterval currency t = (Raised invalid_currency, t)
  /\ get_asic_price_index W self inputInterval currency t = (Raised invalid_currency, t)
  /\ requests_of (get_hashprice W self inputInterval currency) t = sent t
  /\ requests_of (get_asic_price_index W self inputInterval currency) t = sent t.
Proof.
  intros Hb Hu.
  pose proof (currency_known_false currency Hb Hu) as Hk.
  unfold requests_of, get_hashprice, get_asic_price_index.
  rewrite Hk. cbn [negb]. repeat split.
Qed.

(** C2. Two currency strings that differ only in letter case have the same
    lowercase form, so [get_hashprice] is the same computation on both (same
    query text, same field) and so is [get_asic_price_index] (same
    parameter mapping, same slug); the requests they issue coincide. *)
Theorem currency_case_insensitive
        (self : API) (inputInterval : pyval) (a b : string) :
  Text.same_up_to_case a b ->
  Text.lower a = Text.lower b
  /\ get_hashprice W self inputInterval a = get_hashprice W self inputInterval b
  /\ get_asic_price_index W self inputInterval a
     = get_asic_price_index W self inputInterval b
  /\ (forall t, requests_of (get_hashprice W self inputInterval a) t
                = requests_of (get_hashprice W self inputInterval b) t)
  /\ (forall t, requests_of (get_asic_price_index W self inputInterval a) t
                = requests_of (get_asic_price_index W self inputInterval b) t).
Proof.
  intro H. apply same_up_to_case_lower in H.
  assert (Hh : get_hashprice W self inputInterval a
               = get_hashprice W self inputInterval b)
    by (unfold get_hashprice, currency_known; rewrite H; reflexivity).
  assert (Ha : get_asic_price_index W self inputInterval a
               = get_asic_price_index W self inputInterval b)
    by (unfold get_asic_price_index, currency_known; rewrite H; reflexivity).
  repeat split; try assumption; intro t; [rewrite Hh | rewrite Ha]; reflexivity.
Qed.

(** C3, amended. When the server answers with a status outside 200-299,
    [request] raises [Exception] with the message made of the status code,
    the reason phrase and the decoded body, in this order and separated by a
    colon and a space, when the body is not empty and decodes as UTF-8; and
    of the status code and the reason phrase alone when the body is
    empty. *)
Theorem remote_error_message
        (self : API) (query params : pyval) (t : trace) (response : http_response) :
  session_request W (sent t) (outgoing W self query params) = Returned response ->
  ~ (200 <= status_code response < 300)%Z ->
  (forall text,
      content response <> EmptyString ->
      Text.decode (content response) = Some text ->
      fst (request W self query params t)
      = Raised (Exception (Text.str_of_int (status_code response) ++ ": "
                           ++ reason response ++ ": " ++ text)))
  /\ (content response = EmptyString ->
      fst (request W self query params t)
      = Raised (Exception (Text.str_of_int (status_code response) ++ ": "
                           ++ reason response))).
Proof.
  intros Hsend Hstatus.
  assert (Hne : status_code response <> 200%Z) by lia.
  rewrite request_run, Hsend. cbn [fst outcome_bind].
  rewrite (read_response_not_200 response Hne).
  split.
  - intros text Hbody Hdec.
    rewrite (nonempty_true _ Hbody).
    unfold decode_content. rewrite Hdec. reflexivity.
  - intros ->. reflexivity.
Qed.

(** C6. For a currency whose lowercase form is [btc] or [usd],
    [get_hashprice] calls [request] with the template text in which the
    replacement field has become the lowercase currency followed by
    [Hashprice], and with the interval and [first = 10000] in the variables
    mapping; the query text does not depend on the interval. *)
Theorem hashprice_query_built
        (self : API) (inputInterval : pyval) (currency : string) :
  Text.lower currency = "btc" \/ Text.lower currency = "usd" ->
  let field := Text.lower currency ++ "Hashprice" in
  let query := PStr (hashprice_before ++ field ++ hashprice_after) in
  get_hashprice W self inputInterval currency
  = request W self query (page_params inputInterval)
  /\ (forall t, requests_of (get_hashprice W self inputInterval currency) t
                = (sent t ++ [outgoing W self query (page_params inputInterval)])%list)
  /\ request_body W query (page_params inputInterval)
     = json_dumps W (PDict [("query", query);
                            ("variables", PDict [("inputInterval", inputInterval);
                                                 ("first", PInt 10000)])]).
Proof.
  intros Hc field query.
  assert (E : get_hashprice W self inputInterval currency
              = request W self query (page_params inputInterval)).
  { unfold get_hashprice. rewrite (currency_known_true currency Hc).
    cbn [negb]. rewrite format_hashprice_template.
    rewrite bind_lift_returned. reflexivity. }
  split; [exact E |]. split; [| reflexivity].
  intro t. rewrite E. apply request_sends_one.
Qed.

(** C9. Only status 200 is read as success: for any other status, 201 and
    204 included, [request] raises and hands back no decoded body. *)
Theorem only_200_is_success
        (self : API) (query params : pyval) (t : trace) (response : http_response) :
  session_request W (sent t) (outgoing W self query params) = Returned response ->
  status_code response <> 200%Z ->
  exists e, fst (request W self query params t) = Raised e.
Proof.
  intros Hsend Hne.
  rewrite request_run, Hsend. cbn [fst outcome_bind].
  rewrite (read_response_not_200 response Hne).
  destruct (nonempty (content response)); [| eexists; reflexivity].
  destruct (decode_content (content response)); eexists; reflexivity.
Qed.

(** X4. The message of C3 needs the body to decode: on a status other
    than 200 with a non-empty body that is not well-formed UTF-8,
    [content.decode()] raises first, and [request] fails with
    [UnicodeDecodeError] in place of the message with status and reason. *)
Lemma undecodable_body_raises
      (self : API) (query params : pyval) (t : trace) (response : http_response) :
  session_request W (sent t) (outgoing W self query params) = Returned response ->
  status_code response <> 200%Z ->
  content response <> EmptyString ->
  Text.decode (content response) = None ->
  fst (request W self query params t) = Raised UnicodeDecodeError.
Proof.
  intros Hsend Hne Hbody Hdec.
  rewrite request_run, Hsend. cbn [fst outcome_bind].
  rewrite (read_response_not_200 response Hne), (nonempty_true _ Hbody).
  unfold decode_content. rewrite Hdec. reflexivity.
Qed.

(** X3. On status 200 the result of [request] is whatever
    [response.json()] gives, its exception included; the reason phrase and
    the emptiness of the body play no part. *)
Lemma request_on_200
      (self : API) (query params : pyval) (t : trace) (response : http_response) :
  session_request W (sent t) (outgoing W self query params) = Returned response ->
  status_code response = 200%Z ->
  fst (request W self query params t) = json_loads W (content response).
Proof.
  intros Hsend Hs.
  rewrite request_run, Hsend. cbn [fst outcome_bind].
  apply read_response_200. exact Hs.
Qed.

End RequestFacts.

(* ================================================================== *)
(** ** Stripping [price] from the difficulty chart *)

Lemma delitem_price_present (r : pyval) :
  has_key "price" r = true -> delitem r "price" = Returned (without_price r).
Proof.
  destruct r; simpl; try discriminate.
  destruct (dict_get "price" entries); [reflexivity | discriminate].
Qed.

Lemma delitem_price_absent (r : pyval) :
  has_key "price" r = false ->
  exists e, delitem r "price" = Raised e
            /\ (forall d, r = PDict d -> e = KeyError "price").
Proof.
  destruct r; simpl; intro H;
    try (exists TypeError; split; [reflexivity | intros d Hd; discriminate Hd]).
  destruct (dict_get "price" entries); [discriminate |].
  exists (KeyError "price"). split; reflexivity.
Qed.

Lemma without_price_spec (r : pyval) :
  has_key "price" r = true ->
  has_key "price" (without_price r) = false
  /\ (forall k, k <> "price" -> getitem (without_price r) k = getitem r k).
Proof.
  destruct r; simpl; try discriminate. intros _. split.
  - rewrite dict_get_remove_same. reflexivity.
  - intros k Hk. rewrite (dict_get_remove_other "price" k entries Hk). reflexivity.
Qed.

Lemma without_price_everywhere (records : list pyval) :
  Forall (fun r => has_key "price" r = true) records ->
  Forall (fun r' => has_key "price" r' = false) (map without_price records).
Proof.
  induction 1 as [| r rest Hr _ IH]; simpl; constructor; [| exact IH].
  apply (proj1 (without_price_spec r Hr)).
Qed.

Lemma without_price_keeps_others (records : list pyval) :
  Forall (fun r => has_key "price" r = true) records ->
  Forall2 (fun r r' => forall k, k <> "price" -> getitem r' k = getitem r k)
          records (map without_price records).
Proof.
  induction 1 as [| r rest Hr _ IH]; simpl; constructor; [| exact IH].
  apply (proj2 (without_price_spec r Hr)).
Qed.

Lemma del_price_each_all (records : list pyval) :
  Forall (fun r => has_key "price" r = true) records ->
  del_price_each records = (map without_price records, None).
Proof.
  induction 1 as [| r rest Hr _ IH]; simpl; [reflexivity |].
  rewrite (delitem_price_present r Hr), IH. reflexivity.
Qed.

Lemma del_price_each_stops (before after : list pyval) (offending : pyval) (e : exn) :
  Forall (fun r => has_key "price" r = true) before ->
  delitem offending "price" = Raised e ->
  del_price_each (before ++ offending :: after)%list
  = ((map without_price before ++ offending :: after)%list, Some e).
Proof.
  intros Hb He.
  induction Hb as [| r rest Hr _ IH]; simpl.
  - rewrite He. reflexivity.
  - rewrite (delitem_price_present r Hr), IH. reflexivity.
Qed.

Lemma first_without_price (records : list pyval) :
  Exists (fun r => has_key "price" r = false) records ->
  exists before offending after,
    records = (before ++ offending :: after)%list
    /\ Forall (fun r => has_key "price" r = true) before
    /\ has_key "price" offending = false.
Proof.
  induction records as [| r rest IH]; intro H; [inversion H |].
  destruct (has_key "price" r) eqn:Hr.
  - assert (Hrest : Exists (fun r => has_key "price" r = false) rest).
    { inversion H as [? ? H0 | ? ? H0]; subst; [congruence | exact H0]. }
    destruct (IH Hrest) as (before & offending & after & -> & Hb & Ho).
    exists (r :: before), offending, after. repeat split; auto.
  - exists [], r, rest. repeat split; auto.
Qed.

Lemma strip_prices_list (envelope : pyval) (records : list pyval) :
  get_path difficulty_path envelope = Some (PList records) ->
  strip_prices envelope
  = (assign_at difficulty_path (PList (fst (del_price_each records))) envelope,
     snd (del_price_each records)).
Proof.
  intro H. unfold strip_prices.
  rewrite (subscript3_present _ _ _ _ _ H).
  destruct (del_price_each records); reflexivity.
Qed.

Lemma subscript_chain {A} (v : pyval) (a b c : string) (k : pyval -> outcome A) :
  outcome_bind (getitem v a) (fun x =>
  outcome_bind (getitem x b) (fun y =>
  outcome_bind (getitem y c) k))
  = outcome_bind (subscript3 v a b c) k.
Proof.
  unfold subscript3.
  destruct (getitem v a) as [e | x]; [reflexivity |]. simpl.
  destruct (getitem x b); reflexivity.
Qed.

Section DifficultyFacts.

Variable W : World.

Lemma get_network_difficulty_run
      (self : API) (inputInterval : pyval) (t : trace)
      (response : http_response) (envelope : pyval) :
  session_request W (sent t)
    (outgoing W self (PStr network_difficulty_query) (difficulty_params inputInterval))
  = Returned response ->
  status_code response = 200%Z ->
  json_loads W (content response) = Returned envelope ->
  fst (get_network_difficulty W self inputInterval t)
  = match strip_prices envelope with
    | (_, Some e) => Raised e
    | (result, None) => Returned result
    end.
Proof.
  intros Hsend Hstatus Hjson.
  unfold get_network_difficulty, bind.
  change (PDict [("inputInterval", inputInterval);
                 ("inputSlug", PStr "bitcoin-price-and-difficulty")])
    with (difficulty_params inputInterval).
  rewrite request_run, Hsend. cbn [outcome_bind].
  rewrite (read_response_200 W response Hstatus), Hjson.
  destruct (strip_prices envelope) as [result [e |]]; reflexivity.
Qed.

(** C7. When the server answers 200 with an envelope whose payload records
    all have a [price] field, [get_network_difficulty] returns the envelope
    with the payload replaced by the same records without [price]: no
    returned record has the key, every other key reads as before, and the
    list-mode resolver hands back exactly these records. *)
Theorem difficulty_strips_price
        (P : Pandas) (self : API) (inputInterval : pyval) (t : trace)
        (response : http_response) (envelope : pyval) (records : list pyval) :
  session_request W (sent t)
    (outgoing W self (PStr network_difficulty_query) (difficulty_params inputInterval))
  = Returned response ->
  status_code response = 200%Z ->
  json_loads W (content response) = Returned envelope ->
  get_path difficulty_path envelope = Some (PList records) ->
  Forall (fun r => has_key "price" r = true) records ->
  let records' := map without_price records in
  let result := assign_at difficulty_path (PList records') envelope in
  fst (get_network_difficulty W self inputInterval t) = Returned result
  /\ resolve_get_network_difficulty P {| df := false |} result
     = Returned (AsList (PList records'))
  /\ Forall (fun r' => has_key "price" r' = false) records'
  /\ Forall2 (fun r r' => forall k, k <> "price" -> getitem r' k = getitem r k)
             records records'.
Proof.
  intros Hsend Hstatus Hjson Hpath Hall records' result. subst result.
  split; [| split; [| split]].
  - rewrite (get_network_difficulty_run self inputInterval t _ _ Hsend Hstatus Hjson).
    rewrite (strip_prices_list _ _ Hpath).
    rewrite (del_price_each_all _ Hall). reflexivity.
  - unfold resolve_get_network_difficulty. rewrite subscript_chain.
    rewrite (subscript3_present _ _ _ _ _
               (get_path_assign_at difficulty_path (PList records') _ envelope Hpath)).
    reflexivity.
  - apply without_price_everywhere. exact Hall.
  - apply without_price_keeps_others. exact Hall.
Qed.

(** C10. When the server answers 200 with an envelope in which some
    payload record has no [price], [get_network_difficulty] raises the
    exception of the deletion on the first such record ([KeyError] on
    [price] when the record is a dict) and returns nothing; when the loop
    is left, the records before that one have already lost [price] in the
    envelope and the records from it on are as received. *)
Theorem missing_price_raises
        (self : API) (inputInterval : pyval) (t : trace)
        (response : http_response) (envelope : pyval) (records : list pyval) :
  session_request W (sent t)
    (outgoing W self (PStr network_difficulty_query) (difficulty_params inputInterval))
  = Returned response ->
  status_code response = 200%Z ->
  json_loads W (content response) = Returned envelope ->
  get_path difficulty_path envelope = Some (PList records) ->
  Exists (fun r => has_key "price" r = false) records ->
  exists before offending after e,
    records = (before ++ offending :: after)%list
    /\ Forall (fun r => has_key "price" r = true) before
    /\ has_key "price" offending = false
    /\ (forall d, offending = PDict d -> e = KeyError "price")
    /\ fst (get_network_difficulty W self inputInterval t) = Raised e
    /\ strip_prices envelope
       = (assign_at difficulty_path
            (PList (map without_price before ++ offending :: after)%list) envelope,
          Some e).
Proof.
  intros Hsend Hstatus Hjson Hpath Hsome.
  destruct (first_without_price _ Hsome) as (before & offending & after & Hrec & Hb & Ho).
  destruct (delitem_price_absent offending Ho) as (e & Hdel & Hkind).
  exists before, offending, after, e.
  assert (Hstrip : strip_prices envelope
                   = (assign_at difficulty_path
                        (PList (map without_price before ++ offending :: after)%list)
                        envelope, Some e)).
  { rewrite (strip_prices_list _ _ Hpath), Hrec.
    rewrite (del_price_each_stops before after offending e Hb Hdel). reflexivity. }
  repeat split; auto.
  rewrite (get_network_difficulty_run self inputInterval t _ _ Hsend Hstatus Hjson).
  rewrite Hstrip. reflexivity.
Qed.

End DifficultyFacts.

(* ================================================================== *)
(** ** Resolvers *)

Section ResolverFacts.

Variable P : Pandas.

Lemma absent_path_fails (self : RESOLVERS) (json : pyval) (a b c : string) :
  get_path [a; b; c] json = None ->
  fails_malformed [a; b; c]
    (outcome_bind (subscript3 json a b c) (shape P self)).
Proof.
  intro H. destruct (subscript3_absent json a b c H) as (e & -> & He).
  exists e. split; [reflexivity | exact He].
Qed.

(** C8. An envelope that lacks the extraction path of a resolver makes that
    resolver raise, in list mode and in tabular mode alike: [KeyError] on
    the missing key of the path, or [TypeError] where a value on the way
    is not a dict.  No value is returned. *)
Theorem resolvers_reject_missing_path (self : RESOLVERS) (json : pyval) :
  (get_path ["data"; "bitcoinOverviews"; "nodes"] json = None ->
   fails_malformed ["data"; "bitcoinOverviews"; "nodes"]
     (resolve_get_bitcoin_overview P self json))
  /\ (get_path ["data"; "getHashprice"; "nodes"] json = None ->
      fails_malformed ["data"; "getHashprice"; "nodes"]
        (resolve_get_hashprice P self json))
  /\ (get_path ["data"; "getNetworkHashrate"; "nodes"] json = None ->
      fails_malformed ["data"; "getNetworkHashrate"; "nodes"]
        (resolve_get_network_hashrate P self json))
  /\ (get_path ["data"; "getChartBySlug"; "data"] json = None ->
      fails_malformed ["data"; "getChartBySlug"; "data"]
        (resolve_get_network_difficulty P self json)
      /\ fails_malformed ["data"; "getChartBySlug"; "data"]
           (resolve_get_ohlc_prices P self json)
      /\ fails_malformed ["data"; "getChartBySlug"; "data"]
           (resolve_get_asic_price_index P self json)).
Proof.
  unfold resolve_get_bitcoin_overview, resolve_get_hashprice,
    resolve_get_network_hashrate, resolve_get_network_difficulty,
    resolve_get_ohlc_prices, resolve_get_asic_price_index.
  rewrite !subscript_chain.
  repeat split; try intro H; apply absent_path_fails; assumption.
Qed.

End ResolverFacts.

(* ================================================================== *)
(** ** Dynamic dispatch *)

Lemma digit_is_ascii (c : ascii) :
  Text.is_digit c = true -> Text.between 0 127 c = true.
Proof.
  destruct c as [b0 b1 b2 b3 b4 b5 b6 b7];
    destruct b0, b1, b2, b3, b4, b5, b6, b7;
    intro H; try reflexivity; discriminate H.
Qed.

Lemma all_digits_ascii (s : string) :
  Text.all_digits s = true -> Text.ascii_only s = true.
Proof.
  induction s as [| c r IH]; simpl; [reflexivity |].
  intro H. apply andb_true_iff in H. destruct H as [Hc Hr].
  rewrite (digit_is_ascii c Hc), (IH Hr). reflexivity.
Qed.

Lemma ascii_isdigit_ascii (s : string) :
  Text.ascii_isdigit s = true -> Text.ascii_only s = true.
Proof.
  destruct s; [discriminate | apply all_digits_ascii].
Qed.

Section ExecFacts.

Variable W : World.

Lemma exec_depth_step (depth : nat) (self : API) (name : string) (params : pyval) :
  exec_depth W (S depth) self (PStr name) params
  = match getattr self name with
    | Some (Method func) =>
        match params with
        | PStr text =>
            if nonempty text then
              args <- lift (coerce_each W (Text.split "," text)) ;;
              call W (exec_depth W depth) self func args
            else call W (exec_depth W depth) self func []
        | PList [] | PDict [] => call W (exec_depth W depth) self func []
        | PList _ | PDict _ => raise AttributeError
        | _ => raise TypeError
        end
    | _ => raise (Exception ("failed to execute " ++ name))
    end.
Proof.
  reflexivity.
Qed.

Lemma exec_resolved (self : API) (name : string) (func : bound_method) (text : string) :
  getattr self name = Some (Method func) ->
  exec W self name (PStr text)
  = if nonempty text then
      args <- lift (coerce_each W (Text.split "," text)) ;;
      invoke W self func args
    else invoke W self func [].
Proof.
  intro H. unfold exec, invoke.
  change recursion_limit with (S (Nat.pred recursion_limit)) at 1.
  rewrite exec_depth_step, H. reflexivity.
Qed.

Lemma exec_unresolved (self : API) (name : string) (params : pyval) (t : trace) :
  getattr self name = None ->
  exec W self name params t = (Raised (Exception ("failed to execute " ++ name)), t).
Proof.
  intro H. unfold exec.
  change recursion_limit with (S (Nat.pred recursion_limit)).
  rewrite exec_depth_step, H. reflexivity.
Qed.



Lemma coerce_digits (arg : string) (n : Z) :
  isdigit W arg = true -> int W arg = Returned n -> coerce W arg = Returned (PInt n).
Proof.
  intros Hd Hn. unfold coerce. rewrite Hd, Hn. reflexivity.
Qed.


Lemma coerce_other (arg : string) :
  isdigit W arg = false -> coerce W arg = Returned (PStr arg).
Proof.
  intro H. unfold coerce. rewrite H. reflexivity.
Qed.


(** [exec] on one piece of text, once the method is resolved. *)
Lemma exec_one_piece (self : API) (name : string) (func : bound_method) (arg : string) :
  getattr self name = Some (Method func) ->
  nonempty arg = true ->
  Text.contains_char "," arg = false ->
  exec W self name (PStr arg)
  = (v <- lift (coerce W arg) ;; invoke W self func [v]).
Proof.
  intros Hget Hne Hc.
  rewrite (exec_resolved self name func arg Hget), Hne.
  rewrite (split_without_separator "," arg Hc). cbn [coerce_each].
  unfold bind, lift. destruct (coerce W arg); reflexivity.
Qed.


(** C5, amended. Under the method name [get_network_hashrate], and for an
    interval string that is not empty, has no comma and on which [isdigit]
    fails, [exec] is the same computation as the direct call of
    [get_network_hashrate] on that interval: both issue the one request
    whose body holds the fixed query text and the variables mapping with
    the interval and [first = 10000]. *)
Theorem exec_network_hashrate_same_request (self : API) (interval : string) :
  interval <> EmptyString ->
  Text.contains_char "," interval = false ->
  isdigit W interval = false ->
  exec W self "get_network_hashrate" (PStr interval)
  = get_network_hashrate W self (PStr interval)
  /\ (forall t,
        requests_of (exec W self "get_network_hashrate" (PStr interval)) t
        = (sent t ++ [outgoing W self (PStr network_hashrate_query)
                               (page_params (PStr interval))])%list
        /\ requests_of (get_network_hashrate W self (PStr interval)) t
           = (sent t ++ [outgoing W self (PStr network_hashrate_query)
                                  (page_params (PStr interval))])%list).
Proof.
  intros Hne Hc Hd.
  assert (E : exec W self "get_network_hashrate" (PStr interval)
              = get_network_hashrate W self (PStr interval)).
  { rewrite (exec_one_piece self "get_network_hashrate" m_get_network_hashrate
               interval eq_refl (nonempty_true _ Hne) Hc).
    rewrite (coerce_other interval Hd). reflexivity. }
  split; [exact E |].
  intro t. rewrite E. split; apply request_sends_one.
Qed.

End ExecFacts.

(* ------------------------------------------------------------------ *)
(** *** [exec] never reaches the recursion limit *)

Section ExecDepth.

Variable W : World.

Lemma split_pieces_no_separator (sep : ascii) (s : string) :
  Forall (fun p => Text.contains_char sep p = false) (Text.split sep s).
Proof.
  induction s as [| c r IH]; simpl.
  - constructor; [reflexivity | constructor].
  - destruct (Ascii.eqb c sep) eqn:E.
    + constructor; [reflexivity | exact IH].
    + destruct (Text.split sep r) as [| h rest].
      * constructor; [simpl; rewrite E; reflexivity | constructor].
      * inversion IH as [| ? ? Hh Hrest]; subst.
        constructor; [simpl; rewrite E, Hh; reflexivity | exact Hrest].
Qed.

Lemma coerce_piece (arg : string) (v : pyval) :
  Text.contains_char "," arg = false -> coerce W arg = Returned v -> piece v.
Proof.
  intros H Hv. unfold coerce in Hv.
  destruct (isdigit W arg).
  - destruct (int W arg); [discriminate Hv |].
    injection Hv as <-. exact I.
  - injection Hv as <-. exact H.
Qed.

Lemma coerce_each_pieces (pieces : list string) (args : list pyval) :
  Forall (fun p => Text.contains_char "," p = false) pieces ->
  coerce_each W pieces = Returned args ->
  Forall piece args.
Proof.
  intro Hall. revert args.
  induction Hall as [| p rest Hp _ IH]; intros args H; simpl in H.
  - injection H as <-. constructor.
  - destruct (coerce W p) as [e | v] eqn:Ev; [discriminate H |]. simpl in H.
    destruct (coerce_each W rest) as [e | vs]; [discriminate H |]. simpl in H.
    injection H as <-.
    constructor; [exact (coerce_piece p v Hp Ev) | apply IH; reflexivity].
Qed.

Lemma pieces_of_text (text : string) (args : list pyval) :
  coerce_each W (Text.split "," text) = Returned args -> Forall piece args.
Proof.
  apply coerce_each_pieces. apply split_pieces_no_separator.
Qed.

Lemma coerce_each_length (pieces : list string) (args : list pyval) :
  coerce_each W pieces = Returned args -> length args = length pieces.
Proof.
  revert args. induction pieces as [| p rest IH]; intros args H; simpl in H.
  - injection H as <-. reflexivity.
  - destruct (coerce W p) as [e | v]; [discriminate H |]. simpl in H.
    destruct (coerce_each W rest) as [e | vs]; [discriminate H |]. simpl in H.
    injection H as <-. simpl. rewrite (IH vs eq_refl). reflexivity.
Qed.

Lemma call_ext (f g : API -> pyval -> pyval -> M pyval)
      (self : API) (func : bound_method) (args : list pyval) :
  (forall m p, args = [m; p] -> f self m p = g self m p) ->
  call W f self func args = call W g self func args.
Proof.
  intro H.
  destruct func; try reflexivity.
  destruct args as [| m [| p [| q r]]]; try reflexivity.
  simpl. apply H. reflexivity.
Qed.

Lemma bind_lift_ext {A B} (o : outcome A) (k k' : A -> M B) :
  (forall a, o = Returned a -> k a = k' a) ->
  bind (lift o) k = bind (lift o) k'.
Proof.
  intro H. destruct o as [e | a]; [reflexivity |].
  change (k a = k' a). apply H. reflexivity.
Qed.

Lemma exec_depth_piece (d1 d2 : nat) (self : API) (method params : pyval) :
  piece params ->
  exec_depth W (S d1) self method params = exec_depth W (S d2) self method params.
Proof.
  intro Hp.
  destruct method; try reflexivity.
  rewrite !exec_depth_step.
  destruct (getattr self s) as [[v | func] |]; try reflexivity.
  destruct params; try reflexivity; simpl in Hp; try contradiction.
  rewrite (split_without_separator "," s0 Hp).
  destruct (nonempty s0).
  - apply bind_lift_ext. intros args Hargs.
    apply call_ext. intros m p E. subst args.
    apply coerce_each_length in Hargs. discriminate Hargs.
  - apply call_ext; intros m p E; discriminate E.
Qed.

Lemma exec_depth_stable (d : nat) (self : API) (method params : pyval) :
  exec_depth W (S (S d)) self method params = exec_depth W 2 self method params.
Proof.
  destruct method; try reflexivity.
  rewrite !exec_depth_step.
  destruct (getattr self s) as [[v | func] |]; try reflexivity.
  destruct params as [| b | n | m e | text | items | entries]; try reflexivity.
  destruct (nonempty text); [| apply call_ext; intros m p E; discriminate E].
  apply bind_lift_ext. intros args Hargs.
  apply call_ext. intros m p E.
  apply exec_depth_piece.
  pose proof (pieces_of_text text args Hargs) as Hall. rewrite E in Hall.
  inversion Hall as [| ? ? _ Hrest]; subst.
  inversion Hrest as [| ? ? Hp _]; subst. exact Hp.
Qed.

(** X24. [exec] reaching itself by name never nests further than one
    more call: the depth bound plays no part, two levels already give the
    result of [exec] on every name and every argument. *)
Lemma exec_depth_irrelevant (self : API) (name : string) (params : pyval) :
  exec W self name params = exec_depth W 2 self (PStr name) params.
Proof.
  unfold exec.
  change recursion_limit with (S (S (Nat.pred (Nat.pred recursion_limit)))).
  apply exec_depth_stable.
Qed.

End ExecDepth.

(* ================================================================== *)
(** ** The statements at work on the concrete world *)

Lemma invalid_currency_fails_fast_witness :
  Text.lower "EUR" <> "btc"
  /\ Text.lower "EUR" <> "usd"
  /\ get_hashprice Demo.served_chart Demo.api (PStr "_1_DAY") "EUR" Demo.start
     = (Raised (Exception "Invalid currency input"), Demo.start)
  /\ get_asic_price_index Demo.served_chart Demo.api (PStr "_1_YEAR") "EUR" Demo.start
     = (Raised (Exception "Invalid currency input"), Demo.start).
Proof.
  assert (Hb : Text.lower "EUR" <> "btc") by (simpl; discriminate).
  assert (Hu : Text.lower "EUR" <> "usd") by (simpl; discriminate).
  split; [exact Hb |]. split; [exact Hu |]. split.
  - exact (proj1 (invalid_currency_fails_fast Demo.served_chart Demo.api
                    (PStr "_1_DAY") "EUR" Demo.start Hb Hu)).
  - exact (proj1 (proj2 (invalid_currency_fails_fast Demo.served_chart Demo.api
                           (PStr "_1_YEAR") "EUR" Demo.start Hb Hu))).
Defined.

Lemma currency_case_insensitive_witness :
  Text.same_up_to_case "USD" "Usd"
  /\ get_hashprice Demo.served_404 Demo.api (PStr "_7_DAYS") "USD"
     = get_hashprice Demo.served_404 Demo.api (PStr "_7_DAYS") "Usd"
  /\ get_asic_price_index Demo.served_404 Demo.api (PStr "ALL") "USD"
     = get_asic_price_index Demo.served_404 Demo.api (PStr "ALL") "Usd".
Proof.
  assert (H : Text.same_up_to_case "USD" "Usd").
  { apply Text.same_char; [left; reflexivity |].
    apply Text.same_char; [right; reflexivity |].
    apply Text.same_char; [right; reflexivity |].
    apply Text.same_empty. }
  split; [exact H |]. split.
  - exact (proj1 (proj2 (currency_case_insensitive Demo.served_404 Demo.api
                           (PStr "_7_DAYS") "USD" "Usd" H))).
  - exact (proj1 (proj2 (proj2 (currency_case_insensitive Demo.served_404 Demo.api
                                  (PStr "ALL") "USD" "Usd" H)))).
Defined.

Lemma remote_error_message_witness :
  ~ (200 <= status_code Demo.not_found < 300)%Z
  /\ fst (request Demo.served_404 Demo.api (PStr "{ ping }") PNone Demo.start)
     = Raised (Exception "404: Not Found: no such route").
Proof.
  assert (Hs : ~ (200 <= status_code Demo.not_found < 300)%Z) by (simpl; lia).
  split; [exact Hs |].
  apply (proj1 (remote_error_message Demo.served_404 Demo.api (PStr "{ ping }") PNone
                  Demo.start Demo.not_found eq_refl Hs) "no such route").
  - discriminate.
  - reflexivity.
Defined.

(** C3 as worded fails on the code: on a non-empty body that is no UTF-8
    text, decoding raises before the message is built, and what [request]
    raises carries neither status nor reason. *)
Lemma remote_error_message_counterexample :
  ~ (200 <= status_code Demo.garbled < 300)%Z
  /\ content Demo.garbled <> EmptyString
  /\ fst (request Demo.served_garbled Demo.api (PStr "{ ping }") PNone Demo.start)
     = Raised UnicodeDecodeError
  /\ (forall msg,
        fst (request Demo.served_garbled Demo.api (PStr "{ ping }") PNone Demo.start)
        <> Raised (Exception msg)).
Proof.
  split; [simpl; lia |]. split; [discriminate |].
  assert (E : fst (request Demo.served_garbled Demo.api (PStr "{ ping }") PNone
                     Demo.start) = Raised UnicodeDecodeError) by reflexivity.
  split; [exact E |].
  intros msg H. rewrite E in H. discriminate H.
Qed.

Lemma only_200_is_success_witness :
  status_code Demo.no_content <> 200%Z
  /\ exists e,
       fst (request Demo.served_204 Demo.api (PStr "{ ping }") PNone Demo.start)
       = Raised e.
Proof.
  assert (Hs : status_code Demo.no_content <> 200%Z) by discriminate.
  split; [exact Hs |].
  exact (only_200_is_success Demo.served_204 Demo.api (PStr "{ ping }") PNone
           Demo.start Demo.no_content eq_refl Hs).
Defined.

Lemma hashprice_query_built_witness :
  Text.lower "USD" = "usd"
  /\ get_hashprice Demo.served_404 Demo.api (PStr "_3_MONTHS") "USD"
     = request Demo.served_404 Demo.api
         (PStr (hashprice_before ++ "usdHashprice" ++ hashprice_after))
         (PDict [("inputInterval", PStr "_3_MONTHS"); ("first", PInt 10000)]).
Proof.
  split; [reflexivity |].
  exact (proj1 (hashprice_query_built Demo.served_404 Demo.api (PStr "_3_MONTHS")
                  "USD" (or_intror eq_refl))).
Defined.



Lemma exec_network_hashrate_same_request_witness :
  "_7_DAYS" <> EmptyString
  /\ Text.contains_char "," "_7_DAYS" = false
  /\ isdigit Demo.served_204 "_7_DAYS" = false
  /\ exec Demo.served_204 Demo.api "get_network_hashrate" (PStr "_7_DAYS")
     = get_network_hashrate Demo.served_204 Demo.api (PStr "_7_DAYS").
Proof.
  assert (Hne : "_7_DAYS" <> EmptyString) by discriminate.
  split; [exact Hne |]. split; [reflexivity |]. split; [reflexivity |].
  exact (proj1 (exec_network_hashrate_same_request Demo.served_204 Demo.api
                  "_7_DAYS" Hne eq_refl eq_refl)).
Defined.

(** C5 as worded fails on the code.  [network_hashrate] names no attribute
    of the client, so [exec] raises before anything is sent while the direct
    call issues a request; and under the name the class does define, an
    all-digit interval reaches the method as an integer, so the two request
    bodies differ. *)
Lemma exec_network_hashrate_counterexample :
  exec Demo.served_204 Demo.api "network_hashrate" (PStr "_7_DAYS") Demo.start
  = (Raised (Exception "failed to execute network_hashrate"), Demo.start)
  /\ requests_of (exec Demo.served_204 Demo.api "network_hashrate" (PStr "_7_DAYS"))
                 Demo.start
     <> requests_of (get_network_hashrate Demo.served_204 Demo.api (PStr "_7_DAYS"))
                    Demo.start
  /\ map rq_data
         (requests_of (exec Demo.served_204 Demo.api "get_network_hashrate" (PStr "7"))
                      Demo.start)
     <> map rq_data
            (requests_of (get_network_hashrate Demo.served_204 Demo.api (PStr "7"))
                         Demo.start).
Proof.
  split; [reflexivity |]. split; vm_compute; discriminate.
Qed.

Lemma difficulty_strips_price_witness :
  Forall (fun r => has_key "price" r = true) [Demo.record1; Demo.record2]
  /\ fst (get_network_difficulty Demo.served_chart Demo.api (PStr "ALL") Demo.start)
     = Returned (Demo.chart [Demo.stripped1; Demo.stripped2])
  /\ resolve_get_network_difficulty Demo.pandas {| df := false |}
       (Demo.chart [Demo.stripped1; Demo.stripped2])
     = Returned (AsList (PList [Demo.stripped1; Demo.stripped2])).
Proof.
  assert (Hall : Forall (fun r => has_key "price" r = true) [Demo.record1; Demo.record2])
    by (repeat constructor).
  split; [exact Hall |].
  pose proof (difficulty_strips_price Demo.served_chart Demo.pandas Demo.api
                (PStr "ALL") Demo.start
                (Demo.ok (Demo.chart [Demo.record1; Demo.record2]))
                (Demo.chart [Demo.record1; Demo.record2])
                [Demo.record1; Demo.record2]
                eq_refl eq_refl eq_refl eq_refl Hall) as H.
  split; [exact (proj1 H) | exact (proj1 (proj2 H))].
Defined.

Lemma missing_price_raises_witness :
  Exists (fun r => has_key "price" r = false)
         [Demo.record1; Demo.record_no_price; Demo.record2]
  /\ fst (get_network_difficulty Demo.served_gap Demo.api (PStr "ALL") Demo.start)
     = Raised (KeyError "price")
  /\ fst (strip_prices (Demo.chart [Demo.record1; Demo.record_no_price; Demo.record2]))
     = Demo.chart [Demo.stripped1; Demo.record_no_price; Demo.record2].
Proof.
  assert (Hsome : Exists (fun r => has_key "price" r = false)
                         [Demo.record1; Demo.record_no_price; Demo.record2])
    by (apply Exists_cons_tl, Exists_cons_hd; reflexivity).
  split; [exact Hsome |].
  destruct (missing_price_raises Demo.served_gap Demo.api (PStr "ALL") Demo.start
              (Demo.ok (Demo.chart [Demo.record1; Demo.record_no_price; Demo.record2]))
              (Demo.chart [Demo.record1; Demo.record_no_price; Demo.record2])
              [Demo.record1; Demo.record_no_price; Demo.record2]
              eq_refl eq_refl eq_refl eq_refl Hsome)
    as (before & offending & after & e & _ & _ & _ & _ & Hraise & _).
  split; [| reflexivity].
  rewrite Hraise. vm_compute in Hraise.
  injection Hraise as <-. reflexivity.
Defined.

Lemma resolvers_reject_missing_path_witness :
  get_path ["data"; "bitcoinOverviews"; "nodes"] Demo.error_shaped = None
  /\ fails_malformed ["data"; "bitcoinOverviews"; "nodes"]
       (resolve_get_bitcoin_overview Demo.pandas {| df := false |} Demo.error_shaped)
  /\ fails_malformed ["data"; "getHashprice"; "nodes"]
       (resolve_get_hashprice Demo.pandas {| df := true |}
          (PDict [("errors", PList [])])).
Proof.
  split; [reflexivity |]. split.
  - exact (proj1 (resolvers_reject_missing_path Demo.pandas {| df := false |}
                    Demo.error_shaped) eq_refl).
  - exact (proj1 (proj2 (resolvers_reject_missing_path Demo.pandas {| df := true |}
                           (PDict [("errors", PList [])]))) eq_refl).
Defined.

(* ================================================================== *)
(** ** Further properties of [request] and of the operations *)

Section OperationFacts.

Variable W : World.

Lemma request_result (self : API) (query params : pyval) (t : trace) :
  fst (request W self query params t)
  = outcome_bind (session_request W (sent t) (outgoing W self query params))
                 (read_response W).
Proof.
  rewrite request_run. reflexivity.
Qed.

Lemma get_hashprice_valid (self : API) (inputInterval : pyval) (currency : string) :
  currency_known currency = true ->
  get_hashprice W self inputInterval currency
  = request W self
      (PStr (hashprice_before ++ (Text.lower currency ++ "Hashprice") ++ hashprice_after))
      (page_params inputInterval).
Proof.
  intro H. unfold get_hashprice. rewrite H. cbn [negb].
  rewrite format_hashprice_template, bind_lift_returned. reflexivity.
Qed.

Lemma get_asic_price_index_valid (self : API) (inputInterval : pyval) (currency : string) :
  currency_known currency = true ->
  get_asic_price_index W self inputInterval currency
  = request W self (PStr asic_price_index_query)
      (PDict [("inputInterval", inputInterval);
              ("inputSlug", PStr ("asic-price-index-" ++ Text.lower currency))]).
Proof.
  intro H. unfold get_asic_price_index. rewrite H. reflexivity.
Qed.

Lemma get_network_difficulty_result (self : API) (inputInterval : pyval) (t : trace) :
  fst (get_network_difficulty W self inputInterval t)
  = outcome_bind
      (fst (request W self (PStr network_difficulty_query)
              (difficulty_params inputInterval) t))
      (fun result =>
         match strip_prices result with
         | (_, Some e) => Raised e
         | (result', None) => Returned result'
         end).
Proof.
  unfold get_network_difficulty, bind.
  change (PDict [("inputInterval", inputInterval);
                 ("inputSlug", PStr "bitcoin-price-and-difficulty")])
    with (difficulty_params inputInterval).
  destruct (request W self (PStr network_difficulty_query)
              (difficulty_params inputInterval) t) as [[e | result] t'];
    [reflexivity |].
  cbn [fst outcome_bind].
  destruct (strip_prices result) as [result' [e |]]; reflexivity.
Qed.

Lemma currency_known_cases (currency : string) :
  currency_known currency = true ->
  Text.lower currency = "btc" \/ Text.lower currency = "usd".
Proof.
  unfold currency_known. cbn [existsb]. intro H.
  destruct (String.eqb_spec (Text.lower currency) "btc") as [E | _]; [left; exact E |].
  destruct (String.eqb_spec (Text.lower currency) "usd") as [E | _]; [right; exact E |].
  discriminate H.
Qed.


(** X2. When the transport raises, every operation raises that same
    exception: nothing is wrapped, retried or replaced, and
    [get_network_difficulty] does not reach its post-processing. *)
Theorem transport_failure_propagates
        (self : API) (inputInterval : pyval) (currency : string) (t : trace) (e : exn) :
  (forall rq, session_request W (sent t) rq = Raised e) ->
  currency_known currency = true ->
  fst (get_bitcoin_overview W self t) = Raised e
  /\ fst (get_hashprice W self inputInterval currency t) = Raised e
  /\ fst (get_network_hashrate W self inputInterval t) = Raised e
  /\ fst (get_network_difficulty W self inputInterval t) = Raised e
  /\ fst (get_ohlc_prices W self inputInterval t) = Raised e
  /\ fst (get_asic_price_index W self inputInterval currency t) = Raised e.
Proof.
  intros Hdown Hc.
  assert (R : forall q p, fst (request W self q p t) = Raised e)
    by (intros q p; rewrite request_result, Hdown; reflexivity).
  repeat split.
  - apply R.
  - rewrite (get_hashprice_valid self inputInterval currency Hc). apply R.
  - apply R.
  - rewrite get_network_difficulty_result, R. reflexivity.
  - apply R.
  - rewrite (get_asic_price_index_valid self inputInterval currency Hc). apply R.
Qed.

(** X5. For a currency whose lowercase form is [btc] or [usd],
    [get_asic_price_index] sends the fixed chart query with the interval
    and the slug [asic-price-index-] followed by the lowercase currency;
    the slug is one of two texts whatever the case of the argument. *)
Theorem asic_slug_built (self : API) (inputInterval : pyval) (currency : string) :
  currency_known currency = true ->
  let slug := "asic-price-index-" ++ Text.lower currency in
  (slug = "asic-price-index-btc" \/ slug = "asic-price-index-usd")
  /\ get_asic_price_index W self inputInterval currency
     = request W self (PStr asic_price_index_query)
         (PDict [("inputInterval", inputInterval); ("inputSlug", PStr slug)])
  /\ (forall t, requests_of (get_asic_price_index W self inputInterval currency) t
                = (sent t ++ [outgoing W self (PStr asic_price_index_query)
                                (PDict [("inputInterval", inputInterval);
                                        ("inputSlug", PStr slug)])])%list).
Proof.
  intros Hc slug. subst slug. split; [| split].
  - destruct (currency_known_cases currency Hc) as [-> | ->]; [left | right]; reflexivity.
  - apply get_asic_price_index_valid. exact Hc.
  - intro t. rewrite (get_asic_price_index_valid self inputInterval currency Hc).
    apply request_sends_one.
Qed.

(** X6. On a 200 answer that decodes, every operation but
    [get_network_difficulty] hands back the decoded envelope as it is,
    whatever its shape: none of them looks inside. *)
Theorem operations_return_envelope
        (self : API) (inputInterval : pyval) (currency : string) (t : trace)
        (response : http_response) (envelope : pyval) :
  (forall rq, session_request W (sent t) rq = Returned response) ->
  status_code response = 200%Z ->
  json_loads W (content response) = Returned envelope ->
  currency_known currency = true ->
  fst (get_bitcoin_overview W self t) = Returned envelope
  /\ fst (get_hashprice W self inputInterval currency t) = Returned envelope
  /\ fst (get_network_hashrate W self inputInterval t) = Returned envelope
  /\ fst (get_ohlc_prices W self inputInterval t) = Returned envelope
  /\ fst (get_asic_price_index W self inputInterval currency t) = Returned envelope.
Proof.
  intros Hup Hs Hj Hc.
  assert (R : forall q p, fst (request W self q p t) = Returned envelope).
  { intros q p. rewrite request_result, Hup. cbn [outcome_bind].
    rewrite (read_response_200 W response Hs). exact Hj. }
  repeat split.
  - apply R.
  - rewrite (get_hashprice_valid self inputInterval currency Hc). apply R.
  - apply R.
  - apply R.
  - rewrite (get_asic_price_index_valid self inputInterval currency Hc). apply R.
Qed.

End OperationFacts.

(* ================================================================== *)
(** ** No operation sends more than one request *)

Section EffectFacts.

Variable W : World.

Lemma bounded_pure {A} (verbose : bool) (c : M A) :
  (forall t, snd (c t) = t) -> bounded_effect verbose c.
Proof.
  intros H t. exists [], []. rewrite H, !app_nil_r.
  destruct t; repeat split; auto.
Qed.

Lemma bounded_bind_pure_right {A B} (verbose : bool) (c : M A) (k : A -> M B) :
  bounded_effect verbose c ->
  (forall a t, snd (k a t) = t) ->
  bounded_effect verbose (bind c k).
Proof.
  intros Hc Hk t. specialize (Hc t). unfold bind.
  destruct (c t) as [[e | a] t']; cbn [snd] in *; [exact Hc |].
  rewrite Hk. exact Hc.
Qed.

Lemma bounded_bind_pure_left {A B} (verbose : bool) (c : M A) (k : A -> M B) :
  (forall t, snd (c t) = t) ->
  (forall a, bounded_effect verbose (k a)) ->
  bounded_effect verbose (bind c k).
Proof.
  intros Hc Hk t. specialize (Hc t). unfold bind.
  destruct (c t) as [[e | a] t']; cbn [snd] in *; subst t'.
  - apply (bounded_pure verbose (raise (A := B) e)). reflexivity.
  - apply Hk.
Qed.

Lemma request_bounded (self : API) (query params : pyval) :
  bounded_effect (verbose self) (request W self query params).
Proof.
  intro t. rewrite request_run. cbn [snd].
  exists [outgoing W self query params], (if verbose self then [query] else []).
  destruct (verbose self); cbn [length]; rewrite ?app_nil_r;
    repeat split; auto; discriminate.
Qed.

Lemma get_hashprice_bounded (self : API) (inputInterval : pyval) (currency : string) :
  bounded_effect (verbose self) (get_hashprice W self inputInterval currency).
Proof.
  unfold get_hashprice. destruct (negb (currency_known currency)).
  - apply bounded_pure. reflexivity.
  - apply bounded_bind_pure_left; [reflexivity |]. intro q. apply request_bounded.
Qed.

Lemma get_asic_price_index_bounded
      (self : API) (inputInterval : pyval) (currency : string) :
  bounded_effect (verbose self) (get_asic_price_index W self inputInterval currency).
Proof.
  unfold get_asic_price_index. destruct (negb (currency_known currency)).
  - apply bounded_pure. reflexivity.
  - apply request_bounded.
Qed.

Lemma get_network_difficulty_bounded (self : API) (inputInterval : pyval) :
  bounded_effect (verbose self) (get_network_difficulty W self inputInterval).
Proof.
  unfold get_network_difficulty.
  apply bounded_bind_pure_right; [apply request_bounded |].
  intros result t. destruct (strip_prices result) as [result' [e |]]; reflexivity.
Qed.

Lemma call_bounded (f : API -> pyval -> pyval -> M pyval)
      (self : API) (func : bound_method) (args : list pyval) :
  (forall m p, bounded_effect (verbose self) (f self m p)) ->
  bounded_effect (verbose self) (call W f self func args).
Proof.
  intro Hf.
  assert (Hraise : forall e, bounded_effect (verbose self) (raise (A := pyval) e))
    by (intro e; apply bounded_pure; reflexivity).
  destruct func; destruct args as [| a [| b [| c r]]]; cbn [call];
    try apply Hraise; try apply request_bounded; try apply Hf;
    try apply get_network_difficulty_bounded;
    try (destruct b; cbn [with_str]; try apply Hraise;
         first [apply get_hashprice_bounded | apply get_asic_price_index_bounded]).
Qed.

Lemma exec_depth_bounded (depth : nat) (self : API) (method params : pyval) :
  bounded_effect (verbose self) (exec_depth W depth self method params).
Proof.
  revert method params.
  induction depth as [| depth IH]; intros method params;
    [apply bounded_pure; reflexivity |].
  destruct method; try (apply bounded_pure; reflexivity).
  rewrite exec_depth_step.
  destruct (getattr self s) as [[v | func] |];
    try (apply bounded_pure; reflexivity).
  destruct params as [| b | n | m e | text | items | entries];
    try (apply bounded_pure; reflexivity).
  - destruct (nonempty text); [| apply call_bounded; intros; apply IH].
    apply bounded_bind_pure_left; [reflexivity |].
    intro args. apply call_bounded; intros; apply IH.
  - destruct items; [apply call_bounded; intros; apply IH | apply bounded_pure; reflexivity].
  - destruct entries; [apply call_bounded; intros; apply IH | apply bounded_pure; reflexivity].
Qed.

(** X7. Whatever the arguments and whatever the server answers, each
    operation, called directly or through [exec], keeps the requests
    already on the trace, adds at most one, logs at most one message, and
    logs nothing when the client is not verbose: there is no retry and no
    second call.  For [exec] the statement is for names outside the
    double-underscore form. *)
Theorem effects_bounded
        (self : API) (inputInterval : pyval) (currency name : string) (params : pyval) :
  bounded_effect (verbose self) (get_bitcoin_overview W self)
  /\ bounded_effect (verbose self) (get_hashprice W self inputInterval currency)
  /\ bounded_effect (verbose self) (get_network_hashrate W self inputInterval)
  /\ bounded_effect (verbose self) (get_network_difficulty W self inputInterval)
  /\ bounded_effect (verbose self) (get_ohlc_prices W self inputInterval)
  /\ bounded_effect (verbose self) (get_asic_price_index W self inputInterval currency)
  /\ (inherited_form name = false ->
      bounded_effect (verbose self) (exec W self name params)).
Proof.
  split; [apply request_bounded |].
  split; [apply get_hashprice_bounded |].
  split; [apply request_bounded |].
  split; [apply get_network_difficulty_bounded |].
  split; [apply request_bounded |].
  split; [apply get_asic_price_index_bounded |].
  intros _. apply exec_depth_bounded.
Qed.

End EffectFacts.

(* ================================================================== *)
(** ** Edges of the difficulty post-processing *)

Lemma dict_replace_fixed (k : string) (f : pyval -> pyval)
      (d : list (string * pyval)) (x : pyval) :
  dict_get k d = Some x -> f x = x -> dict_replace k f d = d.
Proof.
  intros Hget Hf.
  induction d as [| [k' v] r IH]; simpl in *; [discriminate |].
  destruct (String.eqb k' k).
  - injection Hget as ->. rewrite Hf. reflexivity.
  - rewrite (IH Hget). reflexivity.
Qed.

Lemma assign_at_same (path : list string) (x v : pyval) :
  get_path path v = Some x -> assign_at path x v = v.
Proof.
  revert v. induction path as [| k ks IH]; intros v H; simpl in *;
    [congruence |].
  destruct v; try discriminate.
  destruct (dict_get k entries) as [y |] eqn:E; [| discriminate].
  rewrite (dict_replace_fixed k (assign_at ks x) entries y E (IH y H)).
  reflexivity.
Qed.

Lemma delitem_returns_has_key (r r' : pyval) :
  delitem r "price" = Returned r' -> has_key "price" r = true.
Proof.
  destruct r; simpl; try discriminate.
  destruct (dict_get "price" entries); [reflexivity | discriminate].
Qed.

Lemma del_price_each_completes (records : list pyval) :
  snd (del_price_each records) = None ->
  Forall (fun r => has_key "price" r = true) records.
Proof.
  induction records as [| r rest IH]; simpl; intro H; [constructor |].
  destruct (delitem r "price") as [e | r'] eqn:E; [discriminate H |].
  destruct (del_price_each rest) as [rest' stop]. simpl in *.
  constructor; [exact (delitem_returns_has_key r r' E) | exact (IH H)].
Qed.

Section DifficultyEdges.

Variable W : World.

(** X8. A 200 answer whose envelope lacks the path
    [data / getChartBySlug / data] (an error-shaped body, for one) makes
    [get_network_difficulty] itself raise [KeyError] or [TypeError], after
    the request has gone out: unlike the other operations it never returns
    such an envelope. *)
Theorem difficulty_rejects_missing_path
        (self : API) (inputInterval : pyval) (t : trace)
        (response : http_response) (envelope : pyval) :
  session_request W (sent t)
    (outgoing W self (PStr network_difficulty_query) (difficulty_params inputInterval))
  = Returned response ->
  status_code response = 200%Z ->
  json_loads W (content response) = Returned envelope ->
  get_path difficulty_path envelope = None ->
  fails_malformed difficulty_path (fst (get_network_difficulty W self inputInterval t))
  /\ requests_of (get_network_difficulty W self inputInterval) t
     = (sent t ++ [outgoing W self (PStr network_difficulty_query)
                            (difficulty_params inputInterval)])%list.
Proof.
  intros Hsend Hs Hj Hpath. split.
  - rewrite (get_network_difficulty_run W self inputInterval t _ _ Hsend Hs Hj).
    unfold strip_prices.
    destruct (subscript3_absent envelope "data" "getChartBySlug" "data" Hpath)
      as (e & -> & He).
    exists e. split; [reflexivity | exact He].
  - unfold requests_of, get_network_difficulty, bind.
    change (PDict [("inputInterval", inputInterval);
                   ("inputSlug", PStr "bitcoin-price-and-difficulty")])
      with (difficulty_params inputInterval).
    rewrite request_run, Hsend. cbn [outcome_bind].
    rewrite (read_response_200 W response Hs), Hj.
    destruct (strip_prices envelope) as [result [e |]]; reflexivity.
Qed.

(** X9. A 200 answer whose payload is there but cannot be iterated (null,
    a number, a boolean) makes [get_network_difficulty] raise the
    [TypeError] of the [for] statement. *)
Theorem difficulty_rejects_scalar_payload
        (self : API) (inputInterval : pyval) (t : trace)
        (response : http_response) (envelope payload : pyval) (e : exn) :
  session_request W (sent t)
    (outgoing W self (PStr network_difficulty_query) (difficulty_params inputInterval))
  = Returned response ->
  status_code response = 200%Z ->
  json_loads W (content response) = Returned envelope ->
  get_path difficulty_path envelope = Some payload ->
  iterate payload = Raised e ->
  e = TypeError
  /\ fst (get_network_difficulty W self inputInterval t) = Raised TypeError.
Proof.
  intros Hsend Hs Hj Hpath Hit.
  rewrite (get_network_difficulty_run W self inputInterval t _ _ Hsend Hs Hj).
  unfold strip_prices. rewrite (subscript3_present _ _ _ _ _ Hpath).
  destruct payload; simpl in Hit; try discriminate Hit;
    injection Hit as <-; split; reflexivity.
Qed.

(** X10. A 200 answer whose payload holds nothing to visit (an empty list,
    an empty object, an empty string) comes back from
    [get_network_difficulty] as the very envelope that was decoded. *)
Theorem difficulty_keeps_empty_payload
        (self : API) (inputInterval : pyval) (t : trace)
        (response : http_response) (envelope payload : pyval) :
  session_request W (sent t)
    (outgoing W self (PStr network_difficulty_query) (difficulty_params inputInterval))
  = Returned response ->
  status_code response = 200%Z ->
  json_loads W (content response) = Returned envelope ->
  get_path difficulty_path envelope = Some payload ->
  payload = PList [] \/ payload = PDict [] \/ payload = PStr EmptyString ->
  fst (get_network_difficulty W self inputInterval t) = Returned envelope.
Proof.
  intros Hsend Hs Hj Hpath Hempty.
  rewrite (get_network_difficulty_run W self inputInterval t _ _ Hsend Hs Hj).
  unfold strip_prices. rewrite (subscript3_present _ _ _ _ _ Hpath).
  destruct Hempty as [-> | [-> | ->]].
  - cbn [del_price_each].
    rewrite (assign_at_same difficulty_path (PList []) envelope Hpath). reflexivity.
  - reflexivity.
  - reflexivity.
Qed.

(** X11. On a 200 answer whose payload is a list, [get_network_difficulty]
    returns a result exactly when every record is an object that has the
    key [price]; one record without it is enough for the whole call to
    raise. *)
Theorem difficulty_succeeds_iff
        (self : API) (inputInterval : pyval) (t : trace)
        (response : http_response) (envelope : pyval) (records : list pyval) :
  session_request W (sent t)
    (outgoing W self (PStr network_difficulty_query) (difficulty_params inputInterval))
  = Returned response ->
  status_code response = 200%Z ->
  json_loads W (content response) = Returned envelope ->
  get_path difficulty_path envelope = Some (PList records) ->
  (exists result, fst (get_network_difficulty W self inputInterval t) = Returned result)
  <-> Forall (fun r => has_key "price" r = true) records.
Proof.
  intros Hsend Hs Hj Hpath.
  rewrite (get_network_difficulty_run W self inputInterval t _ _ Hsend Hs Hj).
  rewrite (strip_prices_list _ _ Hpath).
  split.
  - intros [result H]. apply del_price_each_completes.
    destruct (snd (del_price_each records)); [discriminate H | reflexivity].
  - intro Hall. rewrite (del_price_each_all _ Hall). eexists. reflexivity.
Qed.

End DifficultyEdges.

(* ================================================================== *)
(** ** Further properties of the dynamic dispatch *)

Lemma digits_of_uint (d : Decimal.uint) :
  Text.all_digits (NilEmpty.string_of_uint d) = true.
Proof.
  induction d; simpl; auto.
Qed.

Lemma int_from_positive (d : Decimal.uint) (acc : positive) :
  Text.int_from (Zpos acc) (NilEmpty.string_of_uint d) = Zpos (Pos.of_uint_acc d acc).
Proof.
  revert acc.
  induction d as [| d IH | d IH | d IH | d IH | d IH | d IH | d IH | d IH | d IH | d IH];
    intro acc; [reflexivity | ..];
    cbn [NilEmpty.string_of_uint Text.int_from Pos.of_uint_acc];
    rewrite <- IH; f_equal;
    match goal with
    | |- context [Text.digit_value ?c] =>
        let v := eval vm_compute in (Text.digit_value c) in
        change (Text.digit_value c) with v
    end; lia.
Qed.

Lemma int_of_uint (d : Decimal.uint) :
  Text.decimal (NilEmpty.string_of_uint d) = Z.of_N (Pos.of_uint d).
Proof.
  unfold Text.decimal.
  induction d as [| d IH | d IH | d IH | d IH | d IH | d IH | d IH | d IH | d IH | d IH];
    [reflexivity | exact IH | ..];
    cbn [NilEmpty.string_of_uint Text.int_from Pos.of_uint Z.of_N];
    apply int_from_positive.
Qed.

Lemma str_of_positive (p : positive) :
  Text.str_of_int (Zpos p) = NilEmpty.string_of_uint (Pos.to_uint p).
Proof.
  unfold Text.str_of_int. cbn [Z.to_int NilZero.string_of_int].
  pose proof (DecimalPos.Unsigned.to_uint_nonnil p) as H.
  destruct (Pos.to_uint p); [contradiction | reflexivity ..].
Qed.

Lemma split_length (sep : ascii) (s : string) :
  length (Text.split sep s) = S (count_char sep s).
Proof.
  induction s as [| c r IH]; simpl; [reflexivity |].
  destruct (Ascii.eqb c sep); simpl; [rewrite IH; reflexivity |].
  destruct (Text.split sep r); [discriminate IH | exact IH].
Qed.

Lemma split_append (sep : ascii) (a b : string) :
  Text.contains_char sep a = false ->
  Text.split sep (a ++ String sep b) = a :: Text.split sep b.
Proof.
  induction a as [| c r IH]; simpl; intro H.
  - rewrite Ascii.eqb_refl. reflexivity.
  - apply orb_false_iff in H. destruct H as [Hc Hr].
    rewrite Hc, (IH Hr). reflexivity.
Qed.

Lemma nonempty_append (a : string) (c : ascii) (b : string) :
  nonempty (a ++ String c b) = true.
Proof.
  destruct a; reflexivity.
Qed.

Lemma digit_is_no_currency_letter (c : ascii) :
  Text.is_digit c = true ->
  Ascii.eqb (Text.lower_char c) "b" = false
  /\ Ascii.eqb (Text.lower_char c) "u" = false.
Proof.
  destruct c as [b0 b1 b2 b3 b4 b5 b6 b7];
    destruct b0, b1, b2, b3, b4, b5, b6, b7;
    intro H; try discriminate H; split; reflexivity.
Qed.

Lemma digits_unknown_currency (currency : string) :
  Text.ascii_isdigit currency = true -> currency_known currency = false.
Proof.
  destruct currency as [| c r]; [discriminate |].
  simpl. intro H. apply andb_true_iff in H. destruct H as [Hc _].
  destruct (digit_is_no_currency_letter c Hc) as [Hb Hu].
  unfold currency_known. cbn [existsb Text.lower String.eqb].
  rewrite Hb, Hu. reflexivity.
Qed.

Lemma lower_char_keeps_ascii (c : ascii) :
  Text.between 0 127 (Text.lower_char c) = Text.between 0 127 c.
Proof.
  destruct c as [b0 b1 b2 b3 b4 b5 b6 b7];
    destruct b0, b1, b2, b3, b4, b5, b6, b7; reflexivity.
Qed.

Lemma lower_keeps_ascii (s : string) :
  Text.ascii_only (Text.lower s) = Text.ascii_only s.
Proof.
  induction s as [| c r IH]; simpl; [reflexivity |].
  rewrite lower_char_keeps_ascii, IH. reflexivity.
Qed.

Lemma beyond_ascii_unknown_currency (currency : string) :
  Text.ascii_only currency = false -> currency_known currency = false.
Proof.
  intro H. rewrite <- lower_keeps_ascii in H.
  apply currency_known_false; intro E; rewrite E in H; discriminate H.
Qed.

Lemma digits_of_nilzero (d : Decimal.uint) :
  Text.all_digits (NilZero.string_of_uint d) = true.
Proof.
  destruct d; try reflexivity;
    unfold NilZero.string_of_uint; apply digits_of_uint.
Qed.

Section DispatchFacts.

Variable W : World.

Lemma call_arity (f : API -> pyval -> pyval -> M pyval)
      (self : API) (func : bound_method) (args : list pyval) :
  ~ In (length args) (arities func) ->
  call W f self func args = raise TypeError.
Proof.
  intro H.
  destruct func; destruct args as [| a [| b [| c r]]]; try reflexivity;
    exfalso; apply H; simpl; auto.
Qed.

Lemma isdigit_unknown_currency (currency : string) :
  isdigit W currency = true -> currency_known currency = false.
Proof.
  unfold isdigit. destruct (Text.ascii_only currency) eqn:Ha; intro H.
  - apply digits_unknown_currency. exact H.
  - apply beyond_ascii_unknown_currency. exact Ha.
Qed.

(** X12. A name that is not one of the eight methods of the class (an
    unknown name, or one of the data attributes [host], [key], [method],
    [verbose]) makes [exec] raise its own exception, whose message ends in
    the name, whatever the arguments; nothing is sent.  The statement is
    for names outside the double-underscore form of what [object] hands
    down, which the embedding leaves out. *)
Theorem exec_rejects_non_methods
        (self : API) (name : string) (params : pyval) (t : trace) :
  inherited_form name = false ->
  assoc name method_table = None ->
  exec W self name params t
  = (Raised (Exception ("failed to execute " ++ name)), t).
Proof.
  intros _ H. unfold exec.
  change recursion_limit with (S (Nat.pred recursion_limit)).
  rewrite exec_depth_step. unfold getattr. rewrite H. clear H.
  destruct (assoc name _); reflexivity.
Qed.

(** X13. [exec] makes as many arguments as its argument string has
    pieces: none for the empty string, one more than it has commas
    otherwise.  When the resolved method does not accept that number,
    [exec] raises and nothing is sent: the exception of the first piece
    that [int] refuses, if there is one, and the [TypeError] of the call
    otherwise. *)
Theorem exec_wrong_arity
        (self : API) (name : string) (func : bound_method) (text : string) (t : trace) :
  getattr self name = Some (Method func) ->
  ~ In (argument_count text) (arities func) ->
  exec W self name (PStr text) t
  = (Raised match coerce_each W (Text.split "," text) with
            | Raised e => e
            | Returned _ => TypeError
            end, t).
Proof.
  intros Hget Har.
  rewrite (exec_resolved W self name func text Hget). unfold invoke.
  destruct text as [| c r].
  - cbn [nonempty]. rewrite (call_arity _ self func [] Har). reflexivity.
  - cbn [nonempty]. unfold bind, lift.
    destruct (coerce_each W (Text.split "," (String c r))) as [e | args] eqn:E;
      [reflexivity |].
    rewrite call_arity; [reflexivity |].
    rewrite (coerce_each_length W _ _ E), split_length. exact Har.
Qed.

(** X14. Through [exec], the two-argument operations agree with their
    direct call: for an interval and a currency that hold no comma and on
    which [isdigit] fails, the text made of the interval, a comma and the
    currency runs [get_hashprice] (and [get_asic_price_index]) on these two
    strings. *)
Theorem exec_two_arguments (self : API) (interval currency : string) :
  Text.contains_char "," interval = false ->
  Text.contains_char "," currency = false ->
  isdigit W interval = false ->
  isdigit W currency = false ->
  exec W self "get_hashprice" (PStr (interval ++ String "," currency))
  = get_hashprice W self (PStr interval) currency
  /\ exec W self "get_asic_price_index" (PStr (interval ++ String "," currency))
     = get_asic_price_index W self (PStr interval) currency.
Proof.
  intros Hi Hc Hdi Hdc.
  assert (Hargs : coerce_each W (Text.split "," (interval ++ String "," currency))
                  = Returned [PStr interval; PStr currency]).
  { rewrite (split_append "," interval currency Hi).
    rewrite (split_without_separator "," currency Hc). cbn [coerce_each].
    rewrite (coerce_other W interval Hdi), (coerce_other W currency Hdc). reflexivity. }
  split.
  - rewrite (exec_resolved W self "get_hashprice" m_get_hashprice _ eq_refl).
    rewrite nonempty_append, Hargs. reflexivity.
  - rewrite (exec_resolved W self "get_asic_price_index" m_get_asic_price_index _ eq_refl).
    rewrite nonempty_append, Hargs. reflexivity.
Qed.

(** X15. A currency on which [isdigit] holds reaches the method as an
    integer when it comes through [exec], provided [int] converts it and
    the interval before it coerces: the call stops at [currency.lower()]
    with [AttributeError], where the direct call on the same text raises
    the invalid-currency exception.  Nothing is sent either way. *)
Theorem exec_numeric_currency
        (self : API) (interval currency : string) (i : pyval) (n : Z) (t : trace) :
  Text.contains_char "," interval = false ->
  coerce W interval = Returned i ->
  Text.contains_char "," currency = false ->
  isdigit W currency = true ->
  int W currency = Returned n ->
  exec W self "get_hashprice" (PStr (interval ++ String "," currency)) t
  = (Raised AttributeError, t)
  /\ exec W self "get_asic_price_index" (PStr (interval ++ String "," currency)) t
     = (Raised AttributeError, t)
  /\ get_hashprice W self i currency t = (Raised invalid_currency, t)
  /\ get_asic_price_index W self i currency t = (Raised invalid_currency, t).
Proof.
  intros Hi Hvi Hc Hd Hn.
  assert (Hargs : coerce_each W (Text.split "," (interval ++ String "," currency))
                  = Returned [i; PInt n]).
  { rewrite (split_append "," interval currency Hi).
    rewrite (split_without_separator "," currency Hc). cbn [coerce_each].
    rewrite Hvi, (coerce_digits W currency n Hd Hn). reflexivity. }
  pose proof (isdigit_unknown_currency currency Hd) as Hk.
  split; [| split; [| split]].
  - rewrite (exec_resolved W self "get_hashprice" m_get_hashprice _ eq_refl).
    rewrite nonempty_append, Hargs. reflexivity.
  - rewrite (exec_resolved W self "get_asic_price_index" m_get_asic_price_index _ eq_refl).
    rewrite nonempty_append, Hargs. reflexivity.
  - unfold get_hashprice. rewrite Hk. reflexivity.
  - unfold get_asic_price_index. rewrite Hk. reflexivity.
Qed.

(** X16. The coercion of [exec] reads back the decimal text of an integer
    that is not negative as that integer when the text has no more digits
    than the interpreter converts, and raises [ValueError] when it has more;
    the text of a negative integer begins with a minus sign, is not all
    digits, and stays a string. *)
Theorem coerce_reads_printed_integers (n : Z) :
  ((0 <= n)%Z ->
   too_many_digits W (String.length (Text.str_of_int n)) = false ->
   coerce W (Text.str_of_int n) = Returned (PInt n))
  /\ ((0 <= n)%Z ->
      too_many_digits W (String.length (Text.str_of_int n)) = true ->
      coerce W (Text.str_of_int n) = Raised ValueError)
  /\ ((n < 0)%Z ->
      coerce W (Text.str_of_int n) = Returned (PStr (Text.str_of_int n))).
Proof.
  assert (Hpos : forall m, (0 <= m)%Z ->
            Text.ascii_isdigit (Text.str_of_int m) = true
            /\ Text.decimal (Text.str_of_int m) = m).
  { intros m Hm. destruct m as [| p | p]; [split; reflexivity | | lia].
    rewrite str_of_positive. split.
    - pose proof (digits_of_uint (Pos.to_uint p)) as Hall.
      pose proof (DecimalPos.Unsigned.to_uint_nonnil p) as Hnil.
      destruct (Pos.to_uint p); [contradiction | exact Hall ..].
    - rewrite int_of_uint, DecimalPos.Unsigned.of_to. reflexivity. }
  split; [| split].
  - intros H Hl. destruct (Hpos n H) as [Hd Hv].
    pose proof (ascii_isdigit_ascii _ Hd) as Ha.
    unfold coerce, isdigit, int. rewrite Ha, Hd, Hl, Hv. reflexivity.
  - intros H Hl. destruct (Hpos n H) as [Hd _].
    pose proof (ascii_isdigit_ascii _ Hd) as Ha.
    unfold coerce, isdigit, int. rewrite Ha, Hd, Hl. reflexivity.
  - intro H. destruct n as [| p | p]; [lia | lia |].
    unfold Text.str_of_int. cbn [Z.to_int NilZero.string_of_int].
    apply coerce_other. unfold isdigit.
    cbn [Text.ascii_only].
    rewrite (all_digits_ascii _ (digits_of_nilzero (Pos.to_uint p))).
    reflexivity.
Qed.

End DispatchFacts.

(* ================================================================== *)
(** ** Further properties of the resolvers *)

Section ResolverPayload.

Variable P : Pandas.

(** X17. When the envelope has the extraction path of a resolver, the
    resolver in list mode returns what sits at the end of the path,
    untouched and whatever it is (a list, null, a number); in tabular mode
    it returns what [pandas.DataFrame] makes of that same value, or raises
    what [DataFrame] raises. *)
Theorem resolvers_return_payload (self : RESOLVERS) (json x : pyval) :
  let listed := if df self then outcome_bind (DataFrame P x)
                                  (fun table => Returned (AsFrame table))
                else Returned (AsList x) in
  (get_path ["data"; "bitcoinOverviews"; "nodes"] json = Some x ->
   resolve_get_bitcoin_overview P self json = listed)
  /\ (get_path ["data"; "getHashprice"; "nodes"] json = Some x ->
      resolve_get_hashprice P self json = listed)
  /\ (get_path ["data"; "getNetworkHashrate"; "nodes"] json = Some x ->
      resolve_get_network_hashrate P self json = listed)
  /\ (get_path ["data"; "getChartBySlug"; "data"] json = Some x ->
      resolve_get_network_difficulty P self json = listed
      /\ resolve_get_ohlc_prices P self json = listed
      /\ resolve_get_asic_price_index P self json = listed).
Proof.
  intro listed.
  unfold resolve_get_bitcoin_overview, resolve_get_hashprice,
    resolve_get_network_hashrate, resolve_get_network_difficulty,
    resolve_get_ohlc_prices, resolve_get_asic_price_index.
  rewrite !subscript_chain.
  repeat split; try intro H; rewrite (subscript3_present _ _ _ _ _ H);
    reflexivity.
Qed.

End ResolverPayload.

Section Pipeline.

Variable W : World.
Variable P : Pandas.

(** X18. Operation and resolver compose: when the server answers 200 with
    an envelope that has the path of the operation, resolving in list mode
    what the operation returned gives the nodes of that envelope, for
    [get_bitcoin_overview], [get_hashprice] (valid currency) and
    [get_network_hashrate]. *)
Theorem operation_then_resolver
        (self : API) (inputInterval : pyval) (currency : string) (t : trace)
        (response : http_response) (envelope : pyval) :
  (forall rq, session_request W (sent t) rq = Returned response) ->
  status_code response = 200%Z ->
  json_loads W (content response) = Returned envelope ->
  currency_known currency = true ->
  (forall nodes,
      get_path ["data"; "bitcoinOverviews"; "nodes"] envelope = Some nodes ->
      outcome_bind (fst (get_bitcoin_overview W self t))
                   (resolve_get_bitcoin_overview P {| df := false |})
      = Returned (AsList nodes))
  /\ (forall nodes,
         get_path ["data"; "getHashprice"; "nodes"] envelope = Some nodes ->
         outcome_bind (fst (get_hashprice W self inputInterval currency t))
                      (resolve_get_hashprice P {| df := false |})
         = Returned (AsList nodes))
  /\ (forall nodes,
         get_path ["data"; "getNetworkHashrate"; "nodes"] envelope = Some nodes ->
         outcome_bind (fst (get_network_hashrate W self inputInterval t))
                      (resolve_get_network_hashrate P {| df := false |})
         = Returned (AsList nodes)).
Proof.
  intros Hup Hs Hj Hc.
  assert (R : forall q p, fst (request W self q p t) = Returned envelope).
  { intros q p. rewrite request_result, Hup. cbn [outcome_bind].
    rewrite (read_response_200 W response Hs). exact Hj. }
  unfold resolve_get_bitcoin_overview, resolve_get_hashprice,
    resolve_get_network_hashrate.
  repeat split; intros nodes Hpath.
  - unfold get_bitcoin_overview. rewrite R. cbn [outcome_bind].
    rewrite subscript_chain, (subscript3_present _ _ _ _ _ Hpath). reflexivity.
  - rewrite (get_hashprice_valid W self inputInterval currency Hc), R.
    cbn [outcome_bind].
    rewrite subscript_chain, (subscript3_present _ _ _ _ _ Hpath). reflexivity.
  - unfold get_network_hashrate. rewrite R. cbn [outcome_bind].
    rewrite subscript_chain, (subscript3_present _ _ _ _ _ Hpath). reflexivity.
Qed.

End Pipeline.

(* ================================================================== *)
(** ** The command line *)

Section MainFacts.

Variable W : World.

Lemma eqb_empty_false (s : string) : s <> EmptyString -> String.eqb s EmptyString = false.
Proof.
  intro H. apply String.eqb_neq. exact H.
Qed.

(** X19. With neither a function nor a query the script stops on an
    exception that nothing catches, before any client call: nothing is
    sent, nothing is logged, no exit code is chosen by the script. *)
Theorem main_needs_function_or_query (options : Options) (t : trace) :
  opt_query options = EmptyString ->
  opt_function options = EmptyString ->
  main W options t = (Traceback (Exception "must provide function or query"), t, []).
Proof.
  intros Hq Hf. unfold main. rewrite Hq, Hf. reflexivity.
Qed.

(** X20. A query on the command line wins over the function: the script
    calls [request] with the query text and with the raw params string as
    the variables (the empty string by default), whatever the function and
    the table flag are; it exits 0 when [request] returns and 1 when it
    raises. *)
Theorem main_query_first (o1 o2 : Options) (t : trace) :
  opt_query o1 <> EmptyString ->
  opt_host o1 = opt_host o2 ->
  opt_key o1 = opt_key o2 ->
  opt_method o1 = opt_method o2 ->
  opt_query o1 = opt_query o2 ->
  opt_params o1 = opt_params o2 ->
  let api := init (opt_host o1) (opt_key o1) (opt_method o1) false in
  let run := request W api (PStr (opt_query o1)) (PStr (opt_params o1)) in
  main W o1 t = main W o2 t
  /\ fst (fst (main W o1 t))
     = match fst (run t) with
       | Returned _ => Exit 0
       | Raised _ => Exit 1
       end
  /\ sent (snd (fst (main W o1 t)))
     = (sent t ++ [outgoing W api (PStr (opt_query o1)) (PStr (opt_params o1))])%list.
Proof.
  intros Hq Hh Hk Hm Hqq Hp api run. subst api run.
  assert (Hq2 : opt_query o2 <> EmptyString) by congruence.
  unfold main.
  rewrite <- Hh, <- Hk, <- Hm, <- Hqq, <- Hp.
  rewrite (eqb_empty_false _ Hq). cbn [andb].
  unfold bind. rewrite request_run.
  destruct (outcome_bind _ _) as [e | resp]; repeat split; apply app_nil_r || reflexivity.
Qed.

(** X21. A function name that is one of the data attributes of the client
    ([host], [key], [method], [verbose]) passes the script's lookup in
    [dir], and fails only inside [exec]: the exception is caught, logged as
    critical, and the script exits 1 without having sent anything. *)
Theorem main_data_attribute (options : Options) (t : trace) :
  opt_query options = EmptyString ->
  In (opt_function options) ["host"; "key"; "method"; "verbose"] ->
  main W options t
  = (Exit 1, t, [Exception ("failed to execute " ++ opt_function options)]).
Proof.
  intros Hq Hin. unfold main. rewrite Hq.
  destruct Hin as [<- | [<- | [<- | [<- | []]]]]; reflexivity.
Qed.

(** X22. A function name that the client does not have stops the script
    on the uncaught exception [function not found]; [exec] is not reached
    and nothing is sent.  The statement is for names outside the
    double-underscore form. *)
Theorem main_unknown_function (options : Options) (t : trace) :
  opt_query options = EmptyString ->
  opt_function options <> EmptyString ->
  inherited_form (opt_function options) = false ->
  in_dir (init (opt_host options) (opt_key options) (opt_method options) false)
         (opt_function options) = false ->
  main W options t = (Traceback (Exception "function not found"), t, []).
Proof.
  intros Hq Hf _ Hdir. unfold main.
  rewrite Hq, Hdir, (eqb_empty_false _ Hf). reflexivity.
Qed.

(** X23. However the script ends, it has sent at most one request and has
    never logged a query text.  An uncaught exception leaves the trace as it
    was.  Otherwise the script has made its one call ([exec] on the function,
    or [request] on the query), and the trace holds the requests of that
    call: when the call returned, the exit code is 0, no critical error is
    logged, and the one message logged is the value the call returned; when
    the call raised, the exit code is 1, the one critical error is the
    exception of the call, and no message is logged.  The statement is for
    function names outside the double-underscore form. *)
Theorem main_outcomes (options : Options) (t : trace) :
  inherited_form (opt_function options) = false ->
  let api := init (opt_host options) (opt_key options) (opt_method options) false in
  let run := if String.eqb (opt_query options) EmptyString
             then exec W api (opt_function options) (PStr (opt_params options))
             else request W api (PStr (opt_query options))
                          (PStr (opt_params options)) in
  match main W options t with
  | (Traceback _, t', errors) => t' = t /\ errors = []
  | (Exit code, t', errors) =>
      (exists rqs, (length rqs <= 1)%nat /\ sent t' = (sent t ++ rqs)%list)
      /\ sent t' = sent (snd (run t))
      /\ match fst (run t) with
         | Returned resp =>
             code = 0%Z /\ errors = [] /\ logged t' = (logged t ++ [resp])%list
         | Raised e =>
             code = 1%Z /\ errors = [e] /\ logged t' = logged t
         end
  end.
Proof.
  intros _ api run. unfold main. fold api. fold run.
  destruct (String.eqb (opt_query options) EmptyString
            && String.eqb (opt_function options) EmptyString)%bool; [split; reflexivity |].
  destruct (String.eqb (opt_query options) EmptyString
            && negb (in_dir api (opt_function options)))%bool; [split; reflexivity |].
  assert (Hb : bounded_effect false run).
  { subst run. destruct (String.eqb (opt_query options) EmptyString).
    - apply (exec_depth_bounded W recursion_limit api).
    - apply (request_bounded W api). }
  destruct (Hb t) as (rqs & logs & Hsnd & Hlen & _ & Hquiet).
  rewrite (Hquiet eq_refl), app_nil_r in Hsnd.
  unfold bind. destruct (run t) as [[e | resp] t']; cbn [snd fst] in *; subst t'.
  - split; [exists rqs; split; [exact Hlen | reflexivity] |].
    split; [reflexivity |]. repeat split.
  - cbn. split; [exists rqs; split; [exact Hlen | reflexivity] |].
    split; [reflexivity |]. repeat split.
Qed.

End MainFacts.

(* ================================================================== *)
(** ** The further statements at work on the concrete world *)

Lemma transport_failure_propagates_witness :
  currency_known "usd" = true
  /\ fst (get_network_difficulty Demo.unreachable Demo.api (PStr "ALL") Demo.start)
     = Raised RequestException
  /\ fst (get_hashprice Demo.unreachable Demo.api (PStr "ALL") "usd" Demo.start)
     = Raised RequestException.
Proof.
  pose proof (transport_failure_propagates Demo.unreachable Demo.api (PStr "ALL")
                "usd" Demo.start RequestException (fun _ => eq_refl) eq_refl) as H.
  split; [reflexivity |]. split.
  - exact (proj1 (proj2 (proj2 (proj2 H)))).
  - exact (proj1 (proj2 H)).
Defined.

Lemma request_on_200_witness :
  status_code (Demo.ok (Demo.chart [Demo.record1; Demo.record2])) = 200%Z
  /\ fst (request Demo.served_chart Demo.api (PStr "{ chart }") PNone Demo.start)
     = Returned (Demo.chart [Demo.record1; Demo.record2]).
Proof.
  split; [reflexivity |].
  exact (request_on_200 Demo.served_chart Demo.api (PStr "{ chart }") PNone Demo.start
           (Demo.ok (Demo.chart [Demo.record1; Demo.record2])) eq_refl eq_refl).
Defined.

Lemma undecodable_body_raises_witness :
  Text.decode (content Demo.garbled) = None
  /\ fst (request Demo.served_garbled Demo.api (PStr "{ ping }") PNone Demo.start)
     = Raised UnicodeDecodeError.
Proof.
  split; [reflexivity |].
  apply (undecodable_body_raises Demo.served_garbled Demo.api (PStr "{ ping }") PNone
           Demo.start Demo.garbled eq_refl); [discriminate | discriminate | reflexivity].
Defined.

Lemma asic_slug_built_witness :
  currency_known "BTC" = true
  /\ get_asic_price_index Demo.served_404 Demo.api (PStr "_1_YEAR") "BTC"
     = request Demo.served_404 Demo.api (PStr asic_price_index_query)
         (PDict [("inputInterval", PStr "_1_YEAR");
                 ("inputSlug", PStr "asic-price-index-btc")]).
Proof.
  split; [reflexivity |].
  exact (proj1 (proj2 (asic_slug_built Demo.served_404 Demo.api (PStr "_1_YEAR")
                         "BTC" eq_refl))).
Defined.

Lemma operations_return_envelope_witness :
  currency_known "usd" = true
  /\ fst (get_ohlc_prices Demo.served_error_shaped Demo.api (PStr "ALL") Demo.start)
     = Returned Demo.error_shaped
  /\ fst (get_bitcoin_overview Demo.served_error_shaped Demo.api Demo.start)
     = Returned Demo.error_shaped.
Proof.
  pose proof (operations_return_envelope Demo.served_error_shaped Demo.api (PStr "ALL")
                "usd" Demo.start (Demo.ok Demo.error_shaped) Demo.error_shaped
                (fun _ => eq_refl) eq_refl eq_refl eq_refl) as H.
  split; [reflexivity |]. split.
  - exact (proj1 (proj2 (proj2 (proj2 H)))).
  - exact (proj1 H).
Defined.

Lemma difficulty_rejects_missing_path_witness :
  get_path difficulty_path Demo.error_shaped = None
  /\ fails_malformed difficulty_path
       (fst (get_network_difficulty Demo.served_error_shaped Demo.api
               (PStr "ALL") Demo.start)).
Proof.
  split; [reflexivity |].
  exact (proj1 (difficulty_rejects_missing_path Demo.served_error_shaped Demo.api
                  (PStr "ALL") Demo.start (Demo.ok Demo.error_shaped) Demo.error_shaped
                  eq_refl eq_refl eq_refl eq_refl)).
Defined.

Lemma difficulty_rejects_scalar_payload_witness :
  iterate PNone = Raised TypeError
  /\ fst (get_network_difficulty Demo.served_null_chart Demo.api (PStr "ALL") Demo.start)
     = Raised TypeError.
Proof.
  split; [reflexivity |].
  exact (proj2 (difficulty_rejects_scalar_payload Demo.served_null_chart Demo.api
                  (PStr "ALL") Demo.start (Demo.ok Demo.null_chart) Demo.null_chart
                  PNone TypeError eq_refl eq_refl eq_refl eq_refl eq_refl)).
Defined.

Lemma difficulty_keeps_empty_payload_witness :
  get_path difficulty_path (Demo.chart []) = Some (PList [])
  /\ fst (get_network_difficulty Demo.served_empty_chart Demo.api (PStr "ALL") Demo.start)
     = Returned (Demo.chart []).
Proof.
  split; [reflexivity |].
  exact (difficulty_keeps_empty_payload Demo.served_empty_chart Demo.api
           (PStr "ALL") Demo.start (Demo.ok (Demo.chart [])) (Demo.chart [])
           (PList []) eq_refl eq_refl eq_refl eq_refl (or_introl eq_refl)).
Defined.

Lemma difficulty_succeeds_iff_witness :
  ~ Forall (fun r => has_key "price" r = true)
      [Demo.record1; Demo.record_no_price; Demo.record2]
  /\ ~ exists result,
         fst (get_network_difficulty Demo.served_gap Demo.api (PStr "ALL") Demo.start)
         = Returned result.
Proof.
  assert (Hno : ~ Forall (fun r => has_key "price" r = true)
                  [Demo.record1; Demo.record_no_price; Demo.record2]).
  { intro H. inversion H as [| ? ? _ H']; subst.
    inversion H' as [| ? ? Hbad _]; subst. discriminate Hbad. }
  split; [exact Hno |].
  intro Hex. apply Hno.
  exact (proj1 (difficulty_succeeds_iff Demo.served_gap Demo.api (PStr "ALL") Demo.start
                  (Demo.ok (Demo.chart [Demo.record1; Demo.record_no_price; Demo.record2]))
                  (Demo.chart [Demo.record1; Demo.record_no_price; Demo.record2])
                  [Demo.record1; Demo.record_no_price; Demo.record2]
                  eq_refl eq_refl eq_refl eq_refl) Hex).
Defined.

Lemma exec_rejects_non_methods_witness :
  inherited_form "host" = false
  /\ assoc "host" method_table = None
  /\ exec Demo.served_chart Demo.api "host" (PStr "x") Demo.start
     = (Raised (Exception "failed to execute host"), Demo.start).
Proof.
  split; [reflexivity |]. split; [reflexivity |].
  exact (exec_rejects_non_methods Demo.served_chart Demo.api "host" (PStr "x")
           Demo.start eq_refl eq_refl).
Defined.

Lemma exec_wrong_arity_witness :
  argument_count "_1_DAY,usd" = 2%nat
  /\ exec Demo.served_chart Demo.api "get_network_hashrate" (PStr "_1_DAY,usd") Demo.start
     = (Raised TypeError, Demo.start)
  /\ exec Demo.served_chart Demo.api "get_hashprice" (PStr EmptyString) Demo.start
     = (Raised TypeError, Demo.start)
  /\ exec Demo.served_chart Demo.api "get_bitcoin_overview"
          (PStr Demo.superscript_two) Demo.start
     = (Raised ValueError, Demo.start).
Proof.
  split; [reflexivity |]. split; [| split].
  - apply (exec_wrong_arity Demo.served_chart Demo.api "get_network_hashrate"
             m_get_network_hashrate "_1_DAY,usd" Demo.start eq_refl).
    simpl. intros [H | []]. discriminate H.
  - apply (exec_wrong_arity Demo.served_chart Demo.api "get_hashprice"
             m_get_hashprice EmptyString Demo.start eq_refl).
    simpl. intros [H | []]. discriminate H.
  - apply (exec_wrong_arity Demo.served_chart Demo.api "get_bitcoin_overview"
             m_get_bitcoin_overview Demo.superscript_two Demo.start eq_refl).
    simpl. intros [H | []]. discriminate H.
Defined.

Lemma exec_two_arguments_witness :
  isdigit Demo.served_404 "_1_DAY" = false
  /\ isdigit Demo.served_404 "usd" = false
  /\ exec Demo.served_404 Demo.api "get_hashprice" (PStr "_1_DAY,usd")
     = get_hashprice Demo.served_404 Demo.api (PStr "_1_DAY") "usd".
Proof.
  split; [reflexivity |]. split; [reflexivity |].
  exact (proj1 (exec_two_arguments Demo.served_404 Demo.api "_1_DAY" "usd"
                  eq_refl eq_refl eq_refl eq_refl)).
Defined.

Lemma exec_numeric_currency_witness :
  isdigit Demo.served_404 "840" = true
  /\ int Demo.served_404 "840" = Returned 840%Z
  /\ exec Demo.served_404 Demo.api "get_hashprice" (PStr "_1_DAY,840") Demo.start
     = (Raised AttributeError, Demo.start)
  /\ get_hashprice Demo.served_404 Demo.api (PStr "_1_DAY") "840" Demo.start
     = (Raised (Exception "Invalid currency input"), Demo.start).
Proof.
  pose proof (exec_numeric_currency Demo.served_404 Demo.api "_1_DAY" "840"
                (PStr "_1_DAY") 840%Z Demo.start
                eq_refl eq_refl eq_refl eq_refl eq_refl) as H.
  split; [reflexivity |]. split; [reflexivity |]. split.
  - exact (proj1 H).
  - exact (proj1 (proj2 (proj2 H))).
Defined.

Lemma coerce_reads_printed_integers_witness :
  too_many_digits Demo.served_404 (String.length (Text.str_of_int 10000)) = false
  /\ coerce Demo.served_404 (Text.str_of_int 10000) = Returned (PInt 10000)
  /\ coerce Demo.served_404 (Text.str_of_int (-5)%Z) = Returned (PStr "-5").
Proof.
  split; [reflexivity |]. split.
  - apply (proj1 (coerce_reads_printed_integers Demo.served_404 10000%Z));
      [discriminate | reflexivity].
  - apply (proj2 (proj2 (coerce_reads_printed_integers Demo.served_404 (-5)%Z))).
    reflexivity.
Defined.

Lemma resolvers_return_payload_witness :
  get_path ["data"; "getChartBySlug"; "data"] Demo.null_chart = Some PNone
  /\ resolve_get_ohlc_prices Demo.pandas {| df := false |} Demo.null_chart
     = Returned (AsList PNone)
  /\ resolve_get_bitcoin_overview Demo.pandas {| df := true |} Demo.overview_envelope
     = Returned (AsFrame (P := Demo.pandas)
                   [PDict [("timestamp", PInt 1700000000); ("networkDiff", PInt 64)]]).
Proof.
  split; [reflexivity |]. split.
  - exact (proj1 (proj2 (proj2 (proj2 (proj2
             (resolvers_return_payload Demo.pandas {| df := false |}
                Demo.null_chart PNone))) eq_refl))).
  - exact (proj1 (resolvers_return_payload Demo.pandas {| df := true |}
                    Demo.overview_envelope
                    (PList [PDict [("timestamp", PInt 1700000000);
                                   ("networkDiff", PInt 64)]])) eq_refl).
Defined.

Lemma operation_then_resolver_witness :
  currency_known "usd" = true
  /\ outcome_bind (fst (get_bitcoin_overview Demo.served_overview Demo.api Demo.start))
                  (resolve_get_bitcoin_overview Demo.pandas {| df := false |})
     = Returned (AsList (PList [PDict [("timestamp", PInt 1700000000);
                                       ("networkDiff", PInt 64)]])).
Proof.
  split; [reflexivity |].
  exact (proj1 (operation_then_resolver Demo.served_overview Demo.pandas Demo.api
                  (PStr "ALL") "usd" Demo.start (Demo.ok Demo.overview_envelope)
                  Demo.overview_envelope (fun _ => eq_refl) eq_refl eq_refl eq_refl)
               _ eq_refl).
Defined.

Lemma main_needs_function_or_query_witness :
  main Demo.served_chart default_options Demo.start
  = (Traceback (Exception "must provide function or query"), Demo.start, []).
Proof.
  exact (main_needs_function_or_query Demo.served_chart default_options Demo.start
           eq_refl eq_refl).
Defined.

Lemma main_query_first_witness :
  opt_query (Demo.cli "get_hashprice" "{ ping }" EmptyString) <> EmptyString
  /\ main Demo.served_404 (Demo.cli "get_hashprice" "{ ping }" EmptyString) Demo.start
     = main Demo.served_404 (Demo.cli "no_such_function" "{ ping }" EmptyString)
            Demo.start
  /\ sent (snd (fst (main Demo.served_404
                       (Demo.cli "get_hashprice" "{ ping }" EmptyString) Demo.start)))
     = [outgoing Demo.served_404 Demo.cli_api (PStr "{ ping }") (PStr EmptyString)].
Proof.
  assert (Hq : opt_query (Demo.cli "get_hashprice" "{ ping }" EmptyString)
               <> EmptyString) by discriminate.
  pose proof (main_query_first Demo.served_404
                (Demo.cli "get_hashprice" "{ ping }" EmptyString)
                (Demo.cli "no_such_function" "{ ping }" EmptyString)
                Demo.start Hq eq_refl eq_refl eq_refl eq_refl eq_refl) as H.
  split; [exact Hq |]. split.
  - exact (proj1 H).
  - exact (proj2 (proj2 H)).
Defined.

Lemma main_data_attribute_witness :
  In "verbose" ["host"; "key"; "method"; "verbose"]
  /\ main Demo.served_chart (Demo.cli "verbose" EmptyString EmptyString) Demo.start
     = (Exit 1, Demo.start, [Exception "failed to execute verbose"]).
Proof.
  assert (Hin : In "verbose" ["host"; "key"; "method"; "verbose"])
    by (right; right; right; left; reflexivity).
  split; [exact Hin |].
  exact (main_data_attribute Demo.served_chart
           (Demo.cli "verbose" EmptyString EmptyString) Demo.start eq_refl Hin).
Defined.

Lemma main_unknown_function_witness :
  in_dir Demo.cli_api "network_hashrate" = false
  /\ main Demo.served_chart (Demo.cli "network_hashrate" EmptyString "_7_DAYS") Demo.start
     = (Traceback (Exception "function not found"), Demo.start, []).
Proof.
  split; [reflexivity |].
  apply (main_unknown_function Demo.served_chart
           (Demo.cli "network_hashrate" EmptyString "_7_DAYS") Demo.start);
    [reflexivity | discriminate | reflexivity | reflexivity].
Defined.

Lemma effects_bounded_witness :
  inherited_form "get_hashprice" = false
  /\ bounded_effect (verbose Demo.api)
       (exec Demo.served_chart Demo.api "get_hashprice" (PStr "ALL,usd")).
Proof.
  split; [reflexivity |].
  exact (proj2 (proj2 (proj2 (proj2 (proj2 (proj2
           (effects_bounded Demo.served_chart Demo.api PNone EmptyString
              "get_hashprice" (PStr "ALL,usd"))))))) eq_refl).
Defined.

Lemma main_outcomes_witness :
  inherited_form "get_bitcoin_overview" = false
  /\ main Demo.served_overview
          (Demo.cli "get_bitcoin_overview" EmptyString EmptyString) Demo.start
     = (Exit 0,
        {| sent := [outgoing Demo.served_overview Demo.cli_api
                      (PStr bitcoin_overview_query) (PDict [("last", PInt 1)])];
           logged := [Demo.overview_envelope] |},
        [])
  /\ let options := Demo.cli "get_bitcoin_overview" EmptyString EmptyString in
     let run := exec Demo.served_overview Demo.cli_api "get_bitcoin_overview"
                     (PStr EmptyString) in
     match main Demo.served_overview options Demo.start with
     | (Traceback _, t', errors) => t' = Demo.start /\ errors = []
     | (Exit code, t', errors) =>
         (exists rqs, (length rqs <= 1)%nat
                      /\ sent t' = (sent Demo.start ++ rqs)%list)
         /\ sent t' = sent (snd (run Demo.start))
         /\ match fst (run Demo.start) with
            | Returned resp =>
                code = 0%Z /\ errors = []
                /\ logged t' = (logged Demo.start ++ [resp])%list
            | Raised e =>
                code = 1%Z /\ errors = [e] /\ logged t' = logged Demo.start
            end
     end.
Proof.
  split; [reflexivity |]. split; [vm_compute; reflexivity |].
  exact (main_outcomes Demo.served_overview
           (Demo.cli "get_bitcoin_overview" EmptyString EmptyString)
           Demo.start eq_refl).
Defined.
